(** * COMPAS bias audit: the fairness-metric computation

    A shallow embedding of the metric code of

      - [practical_audit/compas_bias_audit.py]
        ([CompasBiasAuditor.calculate_fairness_metrics] and the two
        ASSESSMENT expressions of [CompasBiasAuditor.generate_report]), and
      - [practical_audit/compas_simplified_audit.py] ([analyze_bias]),

    together with the properties of these functions.

    Numbers.  Every metric is a NumPy [float64] obtained from counts of rows
    by one or two divisions.  Such a value is modelled by an exact rational,
    extended with the three special values the code can meet: [+inf], [-inf]
    and [nan].  Rounding is not modelled; the special values follow IEEE 754
    as NumPy applies it (a division by zero yields an infinity or [nan] and a
    warning, which both scripts silence with
    [warnings.filterwarnings('ignore')]; it raises nothing).

    The exception is the equal-opportunity assessment, which decides at a
    bound: there the literal [0.05] is the double nearest to 1/20 and the
    difference that [analyze_bias] takes inside the test is rounded as
    float64 rounds it ([F64.round64], [F64.sub64]). *)

From Stdlib Require Import ZArith QArith Qabs List Bool String Lia Lqa.
From Stdlib Require Import Orders Mergesort Permutation Sorted.
Import ListNotations.

Local Open Scope Z_scope.

(** ** Extended rationals standing for [float64] values *)

Module F64.

Inductive t : Type :=
| Fin (q : Q)
| PInf
| NInf
| NaN.

Definition of_int (z : Z) : t := Fin (inject_Z z).

Definition is_finite (x : t) : bool :=
  match x with Fin _ => true | _ => false end.

Definition is_nan (x : t) : bool :=
  match x with NaN => true | _ => false end.

(** Sign of a rational, as a comparison with zero. *)
Definition sgn (q : Q) : comparison := (q ?= 0)%Q.

(** [x / y].  All zeros the code divides by are counts or rates, hence
    positive zeros. *)
Definition div (x y : t) : t :=
  match x, y with
  | NaN, _ | _, NaN => NaN
  | Fin a, Fin b =>
      match sgn b with
      | Eq => match sgn a with Eq => NaN | Gt => PInf | Lt => NInf end
      | _ => Fin (a / b)
      end
  | Fin _, (PInf | NInf) => Fin 0
  | PInf, Fin b => match sgn b with Lt => NInf | _ => PInf end
  | NInf, Fin b => match sgn b with Lt => PInf | _ => NInf end
  | (PInf | NInf), (PInf | NInf) => NaN
  end.

(** [x - y]. *)
Definition sub (x y : t) : t :=
  match x, y with
  | NaN, _ | _, NaN => NaN
  | Fin a, Fin b => Fin (a - b)
  | Fin _, PInf => NInf
  | Fin _, NInf => PInf
  | PInf, PInf => NaN
  | NInf, NInf => NaN
  | PInf, _ => PInf
  | NInf, _ => NInf
  end.

(** [abs(x)]. *)
Definition abs (x : t) : t :=
  match x with
  | Fin a => Fin (Qabs a)
  | PInf | NInf => PInf
  | NaN => NaN
  end.

(** *** Rounding to float64

    [round64 q] is the double nearest to the rational [q], ties to the even
    significand: 53 significant bits for a normal number, a multiple of
    [2^-1074] below [2^-1022], an infinity from [2^1024] on. *)

(** [2^k] for any integer [k]. *)
Definition pow2 (k : Z) : Q :=
  if 0 <=? k then inject_Z (2 ^ k) else 1 # Z.to_pos (2 ^ (- k)).

(** The integer [e] with [2^e <= n/d < 2^(e+1)], for positive [n] and [d]. *)
Definition floor_log2 (n d : Z) : Z :=
  let e := Z.log2 n - Z.log2 d in
  if (if 0 <=? e then d * 2 ^ e <=? n else d <=? n * 2 ^ (- e))
  then e else e - 1.

(** The integer nearest to [n/d], ties to even, for positive [d]. *)
Definition round_half_even (n d : Z) : Z :=
  let m := n / d in
  match 2 * (n mod d) ?= d with
  | Lt => m
  | Gt => m + 1
  | Eq => if Z.even m then m else m + 1
  end.

(** [n/d], for positive [n] and [d], rounded to a multiple of [2^-s], where
    [s] leaves 53 bits to the significand and is at most 1074. *)
Definition round_magnitude (n d : Z) : Q :=
  let s := Z.min (52 - floor_log2 n d) 1074 in
  let m := if 0 <=? s then round_half_even (n * 2 ^ s) d
           else round_half_even n (d * 2 ^ (- s)) in
  (inject_Z m * pow2 (- s))%Q.

Definition round64 (q : Q) : t :=
  match Qnum q with
  | 0 => Fin 0
  | Zpos n =>
      let r := round_magnitude (Zpos n) (Zpos (Qden q)) in
      if Qle_bool (pow2 1024) r then PInf else Fin r
  | Zneg n =>
      let r := round_magnitude (Zpos n) (Zpos (Qden q)) in
      if Qle_bool (pow2 1024) r then NInf else Fin (- r)
  end.

(** A decimal literal of the source denotes the double nearest to it. *)
Definition literal (q : Q) : t := round64 q.

(** [x - y] as float64 computes it: the exact difference, rounded. *)
Definition sub64 (x y : t) : t :=
  match x, y with
  | Fin a, Fin b => round64 (a - b)
  | _, _ => sub x y
  end.

(** [x < y]; every comparison with [nan] is false. *)
Definition ltb (x y : t) : bool :=
  match x, y with
  | NaN, _ | _, NaN => false
  | Fin a, Fin b => match (a ?= b)%Q with Lt => true | _ => false end
  | NInf, (Fin _ | PInf) => true
  | Fin _, PInf => true
  | _, _ => false
  end.

(** [x > y]. *)
Definition gtb (x y : t) : bool := ltb y x.

(** The order and the equality of float values as propositions. *)
Inductive flt : t -> t -> Prop :=
| flt_fin a b : (a < b)%Q -> flt (Fin a) (Fin b)
| flt_fin_pinf a : flt (Fin a) PInf
| flt_ninf_fin b : flt NInf (Fin b)
| flt_ninf_pinf : flt NInf PInf.

Inductive fle : t -> t -> Prop :=
| fle_fin a b : (a <= b)%Q -> fle (Fin a) (Fin b)
| fle_pinf x : x <> NaN -> fle x PInf
| fle_ninf x : x <> NaN -> fle NInf x.

Inductive feq : t -> t -> Prop :=
| feq_fin a b : (a == b)%Q -> feq (Fin a) (Fin b)
| feq_pinf : feq PInf PInf
| feq_ninf : feq NInf NInf.

(** [in_unit x]: [x] is a number of the closed interval [[0,1]]. *)
Definition in_unit (x : t) : Prop := fle (Fin 0) x /\ fle x (Fin 1).

(** [is_zero x]: [x] is the number zero. *)
Definition is_zero (x : t) : Prop := feq x (Fin 0).

End F64.

Abbreviation float := F64.t.
Abbreviation Fin := F64.Fin.
Abbreviation PInf := F64.PInf.
Abbreviation NInf := F64.NInf.
Abbreviation NaN := F64.NaN.

Declare Scope float_scope.
Delimit Scope float_scope with float.
Infix "/" := F64.div : float_scope.
Infix "-" := F64.sub : float_scope.
Infix "<?" := F64.ltb : float_scope.
Infix ">?" := F64.gtb : float_scope.

Local Open Scope float_scope.

(** ** The table and the NumPy operations the metric code applies to it *)

(** One row of the cleaned COMPAS table, with the columns the metric code
    reads: [race], [decile_score] and the 0/1 indicator [two_year_recid]. *)
Record Row : Type := mkRow {
  race : string;
  decile_score : Z;
  two_year_recid : bool
}.

(** [(... ).astype(int)] on a Boolean. *)
Definition astype_int (b : bool) : Z := if b then 1 else 0.

(** [data['race_binary'] = (data['race'] == 'African-American').astype(int)] *)
Definition race_binary (r : Row) : Z :=
  astype_int (String.eqb (race r) "African-American").

(** [xs[mask]]: Boolean-mask indexing. *)
Fixpoint bool_index {A : Type} (mask : list bool) (xs : list A) : list A :=
  match mask, xs with
  | m :: mask', x :: xs' =>
      if m then x :: bool_index mask' xs' else bool_index mask' xs'
  | _, _ => []
  end.

(** [a & b], elementwise. *)
Definition and_ (a b : list bool) : list bool :=
  map (fun p => fst p && snd p) (combine a b).

(** [np.sum] of integers and of Booleans (the number of [True]). *)
Definition np_sum (l : list Z) : Z := fold_right Z.add 0%Z l.
Definition np_sum_bool (l : list bool) : Z := np_sum (map astype_int l).

Definition len {A : Type} (l : list A) : Z := Z.of_nat (List.length l).

(** [np.mean] and [Series.mean]: sum over count, [nan] on no element. *)
Definition np_mean (l : list Z) : float :=
  F64.of_int (np_sum l) / F64.of_int (len l).

(** The decision threshold: [high_risk_threshold = 5] in [analyze_bias], the
    literal [5] in [calculate_fairness_metrics]. *)
Definition high_risk_threshold : Z := 5%Z.

(** [(decile_score >= threshold).astype(int)] on one row. *)
Definition high_risk_at (threshold : Z) (r : Row) : Z :=
  astype_int (threshold <=? decile_score r)%Z.

(** ** [groupby('race')]

    The groups of a pandas [groupby] are keyed by the distinct values of the
    column, in sorted order. *)

Module StringOrder <: TotalLeBool.

Definition t : Type := string.
Definition leb : string -> string -> bool := String.leb.
Definition leb_total : forall s1 s2 : string,
    leb s1 s2 = true \/ leb s2 s1 = true := String.leb_total.

End StringOrder.

Module StringSort := Sort StringOrder.

Definition group_keys (rs : list Row) : list string :=
  StringSort.sort (nodup string_dec (map race rs)).

Definition group (key : string) (rs : list Row) : list Row :=
  filter (fun r => String.eqb (race r) key) rs.

(** [data.groupby('race')[column].agg(['mean', 'count'])] for an integer
    column without missing entries. *)
Definition groupby_race_mean_count (column : Row -> Z) (rs : list Row)
    : list (string * (float * Z)) :=
  map (fun key => (key, (np_mean (map column (group key rs)),
                         len (group key rs))))
      (group_keys rs).

(** ** scikit-learn's binary classification scores

    [accuracy_score], [precision_score], [recall_score] and [f1_score] with
    their default arguments ([pos_label=1], [average='binary'],
    [zero_division='warn']): an ill-defined ratio is reported as [0.0]. *)

Module Sklearn.

Definition count2 (pt pp : Z -> bool) (y_true y_pred : list Z) : Z :=
  np_sum_bool (and_ (map pt y_true) (map pp y_pred)).

Definition is1 (z : Z) : bool := (z =? 1)%Z.
Definition not1 (z : Z) : bool := negb (z =? 1)%Z.

Definition tp := count2 is1 is1.
Definition fn := count2 is1 not1.
Definition fp := count2 not1 is1.

Definition prf_divide (numerator denominator : Z) : float :=
  if (denominator =? 0)%Z then Fin 0
  else F64.of_int numerator / F64.of_int denominator.

Definition recall_score (y_true y_pred : list Z) : float :=
  prf_divide (tp y_true y_pred) (tp y_true y_pred + fn y_true y_pred).

Definition precision_score (y_true y_pred : list Z) : float :=
  prf_divide (tp y_true y_pred) (tp y_true y_pred + fp y_true y_pred).

Definition f1_score (y_true y_pred : list Z) : float :=
  prf_divide (2 * tp y_true y_pred)
             (2 * tp y_true y_pred + fp y_true y_pred + fn y_true y_pred).

Definition accuracy_score (y_true y_pred : list Z) : float :=
  np_mean (map (fun p => astype_int (fst p =? snd p)%Z) (combine y_true y_pred)).

End Sklearn.

(** ** [compas_bias_audit.py]: [CompasBiasAuditor] *)

Module Auditor.

(** The auditor after [load_data]: [self.data] holds the cleaned table. *)
Record CompasBiasAuditor : Type := mkAuditor { data : list Row }.

(** The [metrics] dictionary of [calculate_fairness_metrics], one field per
    key. *)
Record Metrics : Type := mkMetrics {
  accuracy : float;
  precision : float;
  recall : float;
  f1 : float;
  tpr_african_american : float;
  tpr_others : float;
  fpr_african_american : float;
  fpr_others : float;
  tnr_african_american : float;
  tnr_others : float;
  selection_rate_african_american : float;
  selection_rate_others : float;
  tpr_difference : float;
  fpr_difference : float;
  disparate_impact : float
}.

(** [calculate_fairness_metrics], for a decision threshold [threshold] in
    place of the literal [5].  The method reads [self.data] and assigns
    neither to [self] nor to the table: it returns the dictionary and the
    auditor it was given.  The value of [_convert_to_aif360_format] is bound
    to [dataset] and not used. *)
Definition calculate_fairness_metrics_at (threshold : Z)
    (self : CompasBiasAuditor) : Metrics * CompasBiasAuditor :=
  let y_pred := map (high_risk_at threshold) (data self) in
  let y_true := map (fun r => astype_int (two_year_recid r)) (data self) in
  let race_labels := map race_binary (data self) in
  let african_american_mask := map (fun l => (l =? 1)%Z) race_labels in
  let others_mask := map (fun l => (l =? 0)%Z) race_labels in
  let y_true_aa := bool_index african_american_mask y_true in
  let y_pred_aa := bool_index african_american_mask y_pred in
  let y_true_others := bool_index others_mask y_true in
  let y_pred_others := bool_index others_mask y_pred in
  let eq0 := map (fun y => (y =? 0)%Z) in
  let eq1 := map (fun y => (y =? 1)%Z) in
  let tpr_aa := Sklearn.recall_score y_true_aa y_pred_aa in
  let tpr_oth := Sklearn.recall_score y_true_others y_pred_others in
  let fpr_aa :=
    F64.of_int (np_sum_bool (and_ (eq0 y_true_aa) (eq1 y_pred_aa)))
    / F64.of_int (np_sum_bool (eq0 y_true_aa)) in
  let fpr_oth :=
    F64.of_int (np_sum_bool (and_ (eq0 y_true_others) (eq1 y_pred_others)))
    / F64.of_int (np_sum_bool (eq0 y_true_others)) in
  let tnr_aa := Fin 1 - fpr_aa in
  let tnr_oth := Fin 1 - fpr_oth in
  let selection_rate_aa := np_mean y_pred_aa in
  let selection_rate_oth := np_mean y_pred_others in
  ({| accuracy := Sklearn.accuracy_score y_true y_pred;
      precision := Sklearn.precision_score y_true y_pred;
      recall := Sklearn.recall_score y_true y_pred;
      f1 := Sklearn.f1_score y_true y_pred;
      tpr_african_american := tpr_aa;
      tpr_others := tpr_oth;
      fpr_african_american := fpr_aa;
      fpr_others := fpr_oth;
      tnr_african_american := tnr_aa;
      tnr_others := tnr_oth;
      selection_rate_african_american := selection_rate_aa;
      selection_rate_others := selection_rate_oth;
      tpr_difference := F64.abs (tpr_aa - tpr_oth);
      fpr_difference := F64.abs (fpr_aa - fpr_oth);
      disparate_impact :=
        if selection_rate_oth >? Fin 0
        then selection_rate_aa / selection_rate_oth
        else PInf |},
   self).

Definition calculate_fairness_metrics :
    CompasBiasAuditor -> Metrics * CompasBiasAuditor :=
  calculate_fairness_metrics_at high_risk_threshold.

(** The two ASSESSMENT fields of the report of [generate_report]. *)
Definition demographic_parity_assessment (metrics : Metrics) : string :=
  if (disparate_impact metrics <? Fin (8 # 10))
     || (disparate_impact metrics >? Fin (12 # 10))
  then "VIOLATED" else "ACCEPTABLE".

Definition equal_opportunity_assessment (metrics : Metrics) : string :=
  if fpr_difference metrics >? F64.literal (5 # 100)
  then "VIOLATED" else "ACCEPTABLE".

(** [calculate_basic_statistics]: the overall recidivism rate and the table
    [recidivism_by_race], the first of the two tables the method returns. *)
Definition overall_recidivism (self : CompasBiasAuditor) : float :=
  np_mean (map (fun r => astype_int (two_year_recid r)) (data self)).

Definition recidivism_by_race (self : CompasBiasAuditor)
    : list (string * (float * Z)) :=
  groupby_race_mean_count (fun r => astype_int (two_year_recid r)) (data self).

(** The three counts of the "Dataset Overview" of the report:
    [len(self.data)], [sum(self.data['race'] == 'African-American')] and
    [sum(self.data['race'] != 'African-American')]. *)
Definition total_records (self : CompasBiasAuditor) : Z := len (data self).

Definition african_american_defendants (self : CompasBiasAuditor) : Z :=
  np_sum_bool
    (map (fun r => String.eqb (race r) "African-American") (data self)).

Definition other_race_defendants (self : CompasBiasAuditor) : Z :=
  np_sum_bool
    (map (fun r => negb (String.eqb (race r) "African-American")) (data self)).

(** The "ALGORITHMIC FAIRNESS SCORE" of the report:
    [1 - abs(metrics['fpr_difference']) - abs(metrics['disparate_impact'] - 1)]. *)
Definition fairness_score (metrics : Metrics) : float :=
  (Fin 1 - F64.abs (fpr_difference metrics))
  - F64.abs (disparate_impact metrics - Fin 1).

End Auditor.

(** ** [compas_simplified_audit.py]: [analyze_bias] *)

Module Simplified.

(** The DataFrame handed to [analyze_bias]: the rows of the table and the
    derived column [high_risk], which the frame has only once [analyze_bias]
    has run on it. *)
Record DataFrame : Type := mkFrame {
  rows : list Row;
  high_risk : option (list Z)
}.

(** [data['high_risk'] = column], an assignment to the caller's frame. *)
Definition set_high_risk (data : DataFrame) (column : list Z) : DataFrame :=
  {| rows := rows data; high_risk := Some column |}.

(** The [metrics] dictionary of [analyze_bias]. *)
Record Metrics : Type := mkMetrics {
  selection_rate_aa : float;
  selection_rate_other : float;
  disparate_impact : float;
  fpr_aa : float;
  fpr_other : float;
  tpr_aa : float;
  tpr_other : float
}.

(** [e]: a row of the frame together with its [high_risk] entry. *)
Definition is_african_american (e : Row * Z) : bool :=
  String.eqb (race (fst e)) "African-American".

(** [subset['high_risk'].mean() if len(subset) > 0 else 0] *)
Definition guarded_rate (subset : list (Row * Z)) : float :=
  if (0 <? len subset)%Z then np_mean (map snd subset) else F64.of_int 0.

(** [analyze_bias], for a decision threshold [threshold] in place of
    [high_risk_threshold = 5]: the dictionary it returns and the frame it
    leaves to its caller. *)
Definition analyze_bias_at (threshold : Z) (data : DataFrame)
    : Metrics * DataFrame :=
  let data := set_high_risk data (map (high_risk_at threshold) (rows data)) in
  let table : list (Row * Z) :=
    combine (rows data) (map (high_risk_at threshold) (rows data)) in
  let aa_data := filter is_african_american table in
  let other_data := filter (fun e => negb (is_african_american e)) table in
  let selection_rate_aa := np_mean (map snd aa_data) in
  let selection_rate_other := np_mean (map snd other_data) in
  let no_recid := filter (fun e : Row * Z => negb (two_year_recid (fst e))) in
  let recid := filter (fun e : Row * Z => two_year_recid (fst e)) in
  ({| selection_rate_aa := selection_rate_aa;
      selection_rate_other := selection_rate_other;
      disparate_impact := selection_rate_aa / selection_rate_other;
      fpr_aa := guarded_rate (no_recid aa_data);
      fpr_other := guarded_rate (no_recid other_data);
      tpr_aa := guarded_rate (recid aa_data);
      tpr_other := guarded_rate (recid other_data) |},
   data).

Definition analyze_bias : DataFrame -> Metrics * DataFrame :=
  analyze_bias_at high_risk_threshold.

(** The two lines [analyze_bias] prints under "Bias Assessment:". *)
Definition demographic_parity_line (metrics : Metrics) : string :=
  if (disparate_impact metrics <? Fin (8 # 10))
     || (disparate_impact metrics >? Fin (12 # 10))
  then "  WARNING: DEMOGRAPHIC PARITY VIOLATED (80%-125% rule)"
  else "  OK: Demographic parity acceptable".

Definition equal_opportunity_line (metrics : Metrics) : string :=
  if F64.abs (F64.sub64 (fpr_aa metrics) (fpr_other metrics))
     >? F64.literal (5 # 100)
  then "  WARNING: EQUAL OPPORTUNITY VIOLATED (>5% difference)"
  else "  OK: Equal opportunity acceptable".

(** [create_visualizations]: the heights of the bars of the panels
    "High-Risk Classification Rates" and "False Positive Rates".  The
    function reads [decile_score] and compares it with the literal [5]. *)
Record Bars : Type := mkBars {
  high_risk_aa : float;
  high_risk_other : float;
  bar_fpr_aa : float;
  bar_fpr_other : float
}.

Definition ge5_mean (subset : list Row) : float :=
  np_mean (map (fun r => astype_int (5 <=? decile_score r)%Z) subset).

Definition create_visualizations (data : DataFrame) : Bars :=
  let is_aa r := String.eqb (race r) "African-American" in
  let aa_no_recid :=
    filter (fun r => is_aa r && negb (two_year_recid r)) (rows data) in
  let other_no_recid :=
    filter (fun r => negb (is_aa r) && negb (two_year_recid r)) (rows data) in
  {| high_risk_aa := ge5_mean (filter is_aa (rows data));
     high_risk_other := ge5_mean (filter (fun r => negb (is_aa r)) (rows data));
     bar_fpr_aa :=
       if (0 <? len aa_no_recid)%Z then ge5_mean aa_no_recid
       else F64.of_int 0;
     bar_fpr_other :=
       if (0 <? len other_no_recid)%Z then ge5_mean other_no_recid
       else F64.of_int 0 |}.

(** [generate_audit_report]: the wording chosen for finding 1. *)
Definition report_parity_phrase (metrics : Metrics) : string :=
  if disparate_impact metrics >? Fin (12 # 10)
  then "substantial bias against African Americans"
  else "acceptable demographic parity".

End Simplified.

(** ** Populations, cohorts and the properties under study *)

(** Both scripts on one population: [rows] is the table, [column] the
    [high_risk] column the frame may already carry. *)
Definition full_metrics (rows : list Row) : Auditor.Metrics :=
  fst (Auditor.calculate_fairness_metrics (Auditor.mkAuditor rows)).

Definition simple_metrics (rows : list Row) (column : option (list Z))
    : Simplified.Metrics :=
  fst (Simplified.analyze_bias (Simplified.mkFrame rows column)).

(** The comparison cohort (African-American) and the reference cohort
    (Others). *)
Definition african_american (r : Row) : bool :=
  String.eqb (race r) "African-American".
Definition others (r : Row) : bool := negb (african_american r).

(** The decision and the outcome of a row as Booleans. *)
Definition decision_at (threshold : Z) (r : Row) : bool :=
  (threshold <=? decile_score r)%Z.

(** [count p rs]: the number of rows of [rs] that satisfy [p]. *)
Definition count (p : Row -> bool) (rs : list Row) : Z := len (filter p rs).

(** [ratio a b]: the float quotient of two counts. *)
Definition ratio (a b : Z) : float := F64.of_int a / F64.of_int b.

(** The number of rows of the cohort [c] with decision [d] and outcome [o]. *)
Definition cell (threshold : Z) (c : Row -> bool) (d o : bool)
    (rs : list Row) : Z :=
  count (fun r => c r && Bool.eqb (decision_at threshold r) d
                      && Bool.eqb (two_year_recid r) o) rs.

(** The two cohorts are inhabited and every (decision, outcome) pair has the
    same relative frequency in both. *)
Definition same_distribution (threshold : Z) (rs : list Row) : Prop :=
  (0 < count african_american rs)%Z /\ (0 < count others rs)%Z /\
  forall d o : bool,
    (cell threshold african_american d o rs * count others rs
     = cell threshold others d o rs * count african_american rs)%Z.

(** A disparate impact that is a number of [[0,inf)] or [+inf], not [nan]. *)
Definition impact_defined (x : float) : Prop :=
  (exists q : Q, x = Fin q /\ (0 <= q)%Q) \/ x = PInf.

(** The rate-valued fields of the two dictionaries. *)
Definition full_rates (m : Auditor.Metrics) : list float :=
  [ Auditor.accuracy m; Auditor.precision m; Auditor.recall m; Auditor.f1 m;
    Auditor.tpr_african_american m; Auditor.tpr_others m;
    Auditor.fpr_african_american m; Auditor.fpr_others m;
    Auditor.tnr_african_american m; Auditor.tnr_others m;
    Auditor.selection_rate_african_american m;
    Auditor.selection_rate_others m ].

Definition simple_rates (m : Simplified.Metrics) : list float :=
  [ Simplified.selection_rate_aa m; Simplified.selection_rate_other m;
    Simplified.fpr_aa m; Simplified.fpr_other m;
    Simplified.tpr_aa m; Simplified.tpr_other m ].

(** The vectors [y_true] and [y_pred] of [calculate_fairness_metrics] on the
    rows [rs]. *)
Definition outcomes (rs : list Row) : list Z :=
  map (fun r => astype_int (two_year_recid r)) rs.
Definition decisions (threshold : Z) (rs : list Row) : list Z :=
  map (high_risk_at threshold) rs.

(** The rates of one cohort [rs] written with counts of its rows.  The
    lemmas of the section "What each field computes" show that these are the
    values of the fields of the two dictionaries. *)
Definition recid (r : Row) : bool := two_year_recid r.
Definition no_recid (r : Row) : bool := negb (two_year_recid r).

Definition selection_rate (threshold : Z) (rs : list Row) : float :=
  ratio (count (decision_at threshold) rs) (len rs).

Definition conditional_rate (threshold : Z) (base : Row -> bool)
    (rs : list Row) : float :=
  ratio (count (fun r => base r && decision_at threshold r) rs) (count base rs).

Definition zero_filled_rate (threshold : Z) (base : Row -> bool)
    (rs : list Row) : float :=
  if (0 <? count base rs)%Z then conditional_rate threshold base rs else Fin 0.

(** The 80% rule: a disparate impact below 0.8 or above 1.2. *)
Definition outside_parity_band (x : float) : Prop :=
  F64.flt x (Fin (8 # 10)) \/ F64.flt (Fin (12 # 10)) x.


(** A rate that did not go up from [before] to [after], and that went down
    or stayed where [before] is a number. *)
Definition not_increased (before after : float) : Prop :=
  ~ F64.flt before after /\ (before <> NaN -> F64.fle after before).

(** Sample rows. *)
Definition aa (score : Z) (recid : bool) : Row :=
  mkRow "African-American" score recid.
Definition caucasian (score : Z) (recid : bool) : Row :=
  mkRow "Caucasian" score recid.

(** ** Float values: comparisons and quotients of counts *)

Section FloatFacts.

Lemma ltb_flt (x y : float) : (x <? y) = true <-> F64.flt x y.
Proof.
  split.
  - destruct x as [a| | |], y as [b| | |]; simpl; try discriminate;
      intros H; try (constructor; fail).
    destruct (a ?= b)%Q eqn:E; try discriminate.
    constructor. exact E.
  - intros H. destruct H as [a b H| | |]; simpl; try reflexivity.
    unfold Qlt in H. unfold Qcompare. now rewrite (proj2 (Z.compare_lt_iff _ _) H).
Qed.

Lemma gtb_flt (x y : float) : (x >? y) = true <-> F64.flt y x.
Proof. unfold F64.gtb. apply ltb_flt. Qed.

Lemma sgn_pos (z : Z) : (0 < z)%Z -> F64.sgn (inject_Z z) = Gt.
Proof.
  intros H. unfold F64.sgn, Qcompare, inject_Z; simpl.
  rewrite Z.mul_1_r. apply Z.compare_gt_iff. exact H.
Qed.

Lemma ratio_pos (a b : Z) :
  (0 < b)%Z -> ratio a b = Fin (inject_Z a / inject_Z b).
Proof.
  intros H. unfold ratio, F64.of_int, F64.div. now rewrite (sgn_pos b H).
Qed.

Lemma inject_Z_pos (b : Z) : (0 < b)%Z -> (0 < inject_Z b)%Q.
Proof. intros H. unfold Qlt, inject_Z; simpl. lia. Qed.

Lemma quotient_bounds (a b : Z) :
  (0 <= a <= b)%Z -> (0 < b)%Z ->
  (0 <= inject_Z a / inject_Z b)%Q /\ (inject_Z a / inject_Z b <= 1)%Q.
Proof.
  intros [Ha Hab] Hb. pose proof (inject_Z_pos b Hb) as Hq. split.
  - apply Qle_shift_div_l; [exact Hq|].
    rewrite Qmult_0_l. unfold Qle, inject_Z; simpl. lia.
  - apply Qle_shift_div_r; [exact Hq|].
    rewrite Qmult_1_l. unfold Qle, inject_Z; simpl. lia.
Qed.

Lemma ratio_in_unit (a b : Z) :
  (0 <= a <= b)%Z -> (0 < b)%Z -> F64.in_unit (ratio a b).
Proof.
  intros Hab Hb. rewrite (ratio_pos a b Hb).
  destruct (quotient_bounds a b Hab Hb) as [H0 H1].
  split; constructor; assumption.
Qed.

Lemma in_unit_zero : F64.in_unit (Fin 0).
Proof. split; constructor; unfold Qle; simpl; lia. Qed.

End FloatFacts.

(** ** Lists: masks, sums and counts *)

Section ListFacts.

Context {A B C : Type}.

Lemma bool_index_map (p : A -> bool) (f : A -> B) (l : list A) :
  bool_index (map p l) (map f l) = map f (filter p l).
Proof.
  induction l as [|x l IH]; simpl; [reflexivity|].
  destruct (p x); simpl; now rewrite IH.
Qed.

Lemma combine_map (f : A -> B) (g : A -> C) (l : list A) :
  combine (map f l) (map g l) = map (fun x => (f x, g x)) l.
Proof. induction l as [|x l IH]; simpl; [reflexivity|]. now rewrite IH. Qed.

Lemma filter_combine_map (p : A -> bool) (h : A -> B) (l : list A) :
  filter (fun e => p (fst e)) (combine l (map h l))
  = combine (filter p l) (map h (filter p l)).
Proof.
  induction l as [|x l IH]; simpl; [reflexivity|].
  destruct (p x); simpl; now rewrite IH.
Qed.

Lemma map_snd_combine_map (h : A -> B) (l : list A) :
  map snd (combine l (map h l)) = map h l.
Proof. induction l as [|x l IH]; simpl; [reflexivity|]. now rewrite IH. Qed.

Lemma len_combine_map (h : A -> B) (l : list A) :
  len (combine l (map h l)) = len l.
Proof. unfold len. now rewrite length_combine, length_map, Nat.min_id. Qed.

Lemma len_map (f : A -> B) (l : list A) : len (map f l) = len l.
Proof. unfold len. now rewrite length_map. Qed.

Lemma len_nonneg (l : list A) : (0 <= len l)%Z.
Proof. unfold len. lia. Qed.

Lemma np_sum_indicator (p : A -> bool) (l : list A) :
  np_sum (map (fun x => astype_int (p x)) l) = len (filter p l).
Proof.
  unfold len. induction l as [|x l IH]; simpl; [reflexivity|].
  rewrite IH. destruct (p x); unfold astype_int;
    [change (List.length (x :: filter p l)) with (S (List.length (filter p l)))|]; lia.
Qed.

Lemma len_filter_le (p : A -> bool) (l : list A) :
  (0 <= len (filter p l) <= len l)%Z.
Proof.
  unfold len. split; [lia|]. apply inj_le. apply filter_length_le.
Qed.

Lemma len_filter_and_le (p q : A -> bool) (l : list A) :
  (len (filter (fun x => p x && q x) l) <= len (filter p l))%Z.
Proof.
  unfold len. apply inj_le.
  induction l as [|x l IH]; simpl; [lia|].
  destruct (p x), (q x); simpl; lia.
Qed.

Lemma len_filter_split (p q : A -> bool) (l : list A) :
  (len (filter p l)
   = len (filter (fun x => p x && q x) l)
     + len (filter (fun x => p x && negb (q x)) l))%Z.
Proof.
  unfold len. induction l as [|x l IH]; simpl; [reflexivity|].
  destruct (p x), (q x); cbn [List.length andb negb]; lia.
Qed.

Lemma len_filter_filter (p q : A -> bool) (l : list A) :
  len (filter q (filter p l)) = len (filter (fun x => p x && q x) l).
Proof.
  unfold len. f_equal.
  induction l as [|x l IH]; simpl; [reflexivity|].
  destruct (p x); simpl; [destruct (q x); simpl|]; now rewrite IH.
Qed.


End ListFacts.

Lemma np_sum_bool_count (p : Row -> bool) (rs : list Row) :
  np_sum_bool (map p rs) = count p rs.
Proof. unfold np_sum_bool, count. rewrite map_map. apply np_sum_indicator. Qed.

Lemma count_ext (p q : Row -> bool) (rs : list Row) :
  (forall r, p r = q r) -> count p rs = count q rs.
Proof. intros H. unfold count. now rewrite (filter_ext p q H). Qed.

Lemma np_mean_decisions (t : Z) (rs : list Row) :
  np_mean (map (high_risk_at t) rs) = selection_rate t rs.
Proof.
  unfold np_mean, selection_rate, ratio, count, high_risk_at.
  now rewrite len_map, (np_sum_indicator (decision_at t)).
Qed.

Lemma and_map (p q : Row -> bool) (rs : list Row) :
  and_ (map p rs) (map q rs) = map (fun r => p r && q r) rs.
Proof. unfold and_. now rewrite combine_map, map_map. Qed.

Lemma count_nonneg (p : Row -> bool) (rs : list Row) : (0 <= count p rs)%Z.
Proof. apply len_nonneg. Qed.

Lemma count_le_len (p : Row -> bool) (rs : list Row) : (count p rs <= len rs)%Z.
Proof. apply len_filter_le. Qed.

Lemma count_filter (p q : Row -> bool) (rs : list Row) :
  count q (filter p rs) = count (fun r => p r && q r) rs.
Proof. apply len_filter_filter. Qed.

(** ** What each field computes *)

Section Fields.

Variable t : Z.

Lemma astype_int_eq1 (b : bool) : (astype_int b =? 1)%Z = b.
Proof. now destruct b. Qed.

Lemma astype_int_eq0 (b : bool) : (astype_int b =? 0)%Z = negb b.
Proof. now destruct b. Qed.

Lemma selection_rate_filter (base : Row -> bool) (rs : list Row) :
  selection_rate t (filter base rs) = conditional_rate t base rs.
Proof.
  unfold selection_rate, conditional_rate. now rewrite count_filter.
Qed.

(** [recall_score] on a cohort is the zero-filled true positive rate. *)
Lemma recall_score_cohort (rs : list Row) :
  Sklearn.recall_score (outcomes rs) (decisions t rs) = zero_filled_rate t recid rs.
Proof.
  unfold Sklearn.recall_score, Sklearn.tp, Sklearn.fn, Sklearn.count2,
    outcomes, decisions.
  rewrite !map_map, !and_map, !np_sum_bool_count.
  rewrite (count_ext _ (fun r => recid r && decision_at t r));
    [|intros r; unfold Sklearn.is1, high_risk_at, recid;
      now rewrite !astype_int_eq1].
  rewrite (count_ext (fun r => Sklearn.is1 _ && Sklearn.not1 _)
                     (fun r => recid r && negb (decision_at t r)));
    [|intros r; unfold Sklearn.is1, Sklearn.not1, high_risk_at, recid;
      now rewrite !astype_int_eq1].
  unfold count at 1 2 3. rewrite <- len_filter_split.
  unfold Sklearn.prf_divide, zero_filled_rate, conditional_rate.
  fold (count recid rs).
  pose proof (count_nonneg recid rs) as H.
  destruct (Z.eqb_spec (count recid rs) 0) as [E|E].
  - rewrite E. reflexivity.
  - destruct (Z.ltb_spec 0 (count recid rs)); [reflexivity|lia].
Qed.

(** The unguarded quotient of [calculate_fairness_metrics] for the false
    positive rate. *)
Lemma fpr_quotient_cohort (rs : list Row) :
  F64.of_int
    (np_sum_bool (and_ (map (fun y => (y =? 0)%Z) (outcomes rs))
                       (map (fun y => (y =? 1)%Z) (decisions t rs))))
  / F64.of_int (np_sum_bool (map (fun y => (y =? 0)%Z) (outcomes rs)))
  = conditional_rate t no_recid rs.
Proof.
  unfold outcomes, decisions. rewrite !map_map, and_map, !np_sum_bool_count.
  unfold conditional_rate, ratio.
  rewrite (count_ext _ (fun r => no_recid r && decision_at t r));
    [|intros r; unfold high_risk_at, no_recid;
      now rewrite astype_int_eq0, astype_int_eq1].
  rewrite (count_ext (fun r => (astype_int (two_year_recid r) =? 0)%Z) no_recid);
    [reflexivity|intros r; apply astype_int_eq0].
Qed.

(** The guarded mean of [analyze_bias] on a subset of a cohort. *)
Lemma guarded_rate_subset (base : Row -> bool) (rs : list Row) :
  Simplified.guarded_rate
    (combine (filter base rs) (map (high_risk_at t) (filter base rs)))
  = zero_filled_rate t base rs.
Proof.
  unfold Simplified.guarded_rate, zero_filled_rate.
  rewrite len_combine_map, map_snd_combine_map.
  rewrite np_mean_decisions, selection_rate_filter. reflexivity.
Qed.

Lemma mask_african_american (rs : list Row) :
  map (fun l => (l =? 1)%Z) (map race_binary rs) = map african_american rs.
Proof.
  rewrite map_map. apply map_ext. intros r. apply astype_int_eq1.
Qed.

Lemma mask_others (rs : list Row) :
  map (fun l => (l =? 0)%Z) (map race_binary rs) = map others rs.
Proof.
  rewrite map_map. apply map_ext. intros r. apply astype_int_eq0.
Qed.

(** The dictionary of [calculate_fairness_metrics], field by field. *)
Lemma full_fields (rows : list Row) :
  let AA := filter african_american rows in
  let OT := filter others rows in
  fst (Auditor.calculate_fairness_metrics_at t (Auditor.mkAuditor rows))
  = {| Auditor.accuracy := Sklearn.accuracy_score (outcomes rows) (decisions t rows);
       Auditor.precision := Sklearn.precision_score (outcomes rows) (decisions t rows);
       Auditor.recall := zero_filled_rate t recid rows;
       Auditor.f1 := Sklearn.f1_score (outcomes rows) (decisions t rows);
       Auditor.tpr_african_american := zero_filled_rate t recid AA;
       Auditor.tpr_others := zero_filled_rate t recid OT;
       Auditor.fpr_african_american := conditional_rate t no_recid AA;
       Auditor.fpr_others := conditional_rate t no_recid OT;
       Auditor.tnr_african_american := Fin 1 - conditional_rate t no_recid AA;
       Auditor.tnr_others := Fin 1 - conditional_rate t no_recid OT;
       Auditor.selection_rate_african_american := selection_rate t AA;
       Auditor.selection_rate_others := selection_rate t OT;
       Auditor.tpr_difference :=
         F64.abs (zero_filled_rate t recid AA - zero_filled_rate t recid OT);
       Auditor.fpr_difference :=
         F64.abs (conditional_rate t no_recid AA
                  - conditional_rate t no_recid OT);
       Auditor.disparate_impact :=
         if selection_rate t OT >? Fin 0
         then selection_rate t AA / selection_rate t OT
         else PInf |}.
Proof.
  intros AA OT.
  unfold Auditor.calculate_fairness_metrics_at. cbn [fst Auditor.data].
  rewrite mask_african_american, mask_others, !bool_index_map.
  fold AA OT.
  fold (outcomes AA) (decisions t AA) (outcomes OT) (decisions t OT).
  rewrite !recall_score_cohort, !fpr_quotient_cohort.
  unfold decisions. rewrite !np_mean_decisions. reflexivity.
Qed.

(** The dictionary of [analyze_bias], field by field. *)
Lemma simple_fields (rows : list Row) (column : option (list Z)) :
  let AA := filter african_american rows in
  let OT := filter others rows in
  fst (Simplified.analyze_bias_at t (Simplified.mkFrame rows column))
  = {| Simplified.selection_rate_aa := selection_rate t AA;
       Simplified.selection_rate_other := selection_rate t OT;
       Simplified.disparate_impact :=
         selection_rate t AA / selection_rate t OT;
       Simplified.fpr_aa := zero_filled_rate t no_recid AA;
       Simplified.fpr_other := zero_filled_rate t no_recid OT;
       Simplified.tpr_aa := zero_filled_rate t recid AA;
       Simplified.tpr_other := zero_filled_rate t recid OT |}.
Proof.
  intros AA OT.
  unfold Simplified.analyze_bias_at.
  cbn [fst Simplified.rows Simplified.set_high_risk].
  change Simplified.is_african_american
    with (fun e : Row * Z => african_american (fst e)).
  change (fun e : Row * Z =>
            negb ((fun e0 : Row * Z => african_american (fst e0)) e))
    with (fun e : Row * Z => others (fst e)).
  change (fun e : Row * Z => negb (two_year_recid (fst e)))
    with (fun e : Row * Z => no_recid (fst e)).
  change (fun e : Row * Z => two_year_recid (fst e))
    with (fun e : Row * Z => recid (fst e)).
  rewrite !filter_combine_map. fold AA OT.
  rewrite !map_snd_combine_map, !np_mean_decisions, !guarded_rate_subset.
  reflexivity.
Qed.

End Fields.

(** ** The decision threshold and the assessments *)



Lemma band_decide (x : float) :
  ((x <? Fin (8 # 10)) || (x >? Fin (12 # 10))) = true
  <-> outside_parity_band x.
Proof.
  unfold outside_parity_band.
  rewrite orb_true_iff, ltb_flt, gtb_flt. reflexivity.
Qed.

(** C6.  For every metrics dictionary, the demographic-parity assessment is
    VIOLATED if and only if the disparate impact is below 0.8 or above 1.2,
    and ACCEPTABLE (the OK line, in [analyze_bias]) otherwise; the assessment
    reads nothing but the dictionary. *)
Theorem demographic_parity_rule
    (mf : Auditor.Metrics) (ms : Simplified.Metrics) :
  (Auditor.demographic_parity_assessment mf = "VIOLATED"%string
   <-> outside_parity_band (Auditor.disparate_impact mf))
  /\ (Auditor.demographic_parity_assessment mf = "ACCEPTABLE"%string
      <-> ~ outside_parity_band (Auditor.disparate_impact mf))
  /\ (Simplified.demographic_parity_line ms
      = "  WARNING: DEMOGRAPHIC PARITY VIOLATED (80%-125% rule)"%string
      <-> outside_parity_band (Simplified.disparate_impact ms))
  /\ (Simplified.demographic_parity_line ms
      = "  OK: Demographic parity acceptable"%string
      <-> ~ outside_parity_band (Simplified.disparate_impact ms)).
Proof.
  unfold Auditor.demographic_parity_assessment,
    Simplified.demographic_parity_line.
  rewrite <- !band_decide.
  destruct (_ || _); destruct (_ || _);
    repeat split; intros H; try reflexivity; try discriminate;
    try (exfalso; apply H; reflexivity).
Qed.

(** [round_half_even n d] is an integer nearest to [n/d], the even one of the
    two when [n/d] lies half way. *)
Lemma round_half_even_nearest (n d : Z) :
  (0 < d)%Z ->
  let m := F64.round_half_even n d in
  (Z.abs (2 * (m * d - n)) <= d)%Z
  /\ (Z.abs (2 * (m * d - n)) = d -> Z.even m = true).
Proof.
  intros Hd. cbv zeta. unfold F64.round_half_even.
  pose proof (Z.div_mod n d ltac:(lia)) as E.
  pose proof (Z.mod_pos_bound n d Hd) as B.
  destruct (Z.compare_spec (2 * (n mod d)) d) as [C|C|C].
  - destruct (Z.even (n / d)) eqn:Ev.
    + split; [lia|intros _; exact Ev].
    + split; [lia|intros _].
      rewrite Z.even_add, Ev. reflexivity.
  - split; lia.
  - split; lia.
Qed.

(** The literal [0.05] is the double 3602879701896397 / 2^56, which is above
    1/20; the neighbours of [1], the smallest subnormal and the largest
    double round as IEEE 754 prescribes. *)
Lemma round64_examples :
  F64.feq (F64.literal (5 # 100))
          (Fin (3602879701896397 # 72057594037927936))
  /\ F64.feq (F64.literal (8 # 10))
             (Fin (3602879701896397 # 4503599627370496))
  /\ F64.feq (F64.round64 (3 # 4)) (Fin (3 # 4))
  /\ F64.feq (F64.round64 (1 + (1 # 9007199254740992))) (Fin 1)
  /\ F64.feq (F64.round64 (1 + (3 # 9007199254740992)))
              (Fin (1 + (1 # 2251799813685248)))
  /\ F64.feq (F64.round64 (F64.pow2 (-1075))) (Fin 0)
  /\ F64.feq (F64.round64 (3 * F64.pow2 (-1075))) (Fin (F64.pow2 (-1073)))
  /\ F64.feq (F64.round64 (F64.pow2 1024 - F64.pow2 971))
              (Fin (F64.pow2 1024 - F64.pow2 971))
  /\ F64.round64 (F64.pow2 1024 - F64.pow2 970) = PInf.
Proof.
  repeat split; vm_compute; try reflexivity;
    apply F64.feq_fin; vm_compute; reflexivity.
Qed.


(** At the bound.  With false positive rates 0.75 and 0.8 (the double), the
    float64 difference is 225179981368525 / 2^52, above the float [0.05]:
    [analyze_bias] prints the WARNING line although the rationals 3/4 and
    4/5 differ by 1/20.  A stored difference equal to the float [0.05] is
    not above it. *)
Lemma equal_opportunity_at_the_bound :
  let d08 := F64.literal (8 # 10) in
  let ms := Simplified.mkMetrics NaN NaN NaN (Fin (3 # 4)) d08 NaN NaN in
  let mf := Auditor.mkMetrics NaN NaN NaN NaN NaN NaN NaN NaN NaN NaN NaN NaN
              NaN (F64.literal (5 # 100)) NaN in
  F64.feq (F64.abs (F64.sub64 (Fin (3 # 4)) d08))
          (Fin (225179981368525 # 4503599627370496))
  /\ Simplified.equal_opportunity_line ms
     = "  WARNING: EQUAL OPPORTUNITY VIOLATED (>5% difference)"%string
  /\ Auditor.equal_opportunity_assessment mf = "ACCEPTABLE"%string.
Proof.
  cbv zeta. split; [vm_compute; apply F64.feq_fin; vm_compute; reflexivity|].
  split; vm_compute; reflexivity.
Qed.

(** ** Selection rates and the disparate impact *)

Ltac fields :=
  unfold full_metrics, simple_metrics, Auditor.calculate_fairness_metrics,
    Simplified.analyze_bias in *;
  rewrite ?full_fields, ?simple_fields in *;
  cbn [Auditor.accuracy Auditor.precision Auditor.recall Auditor.f1
       Auditor.tpr_african_american Auditor.tpr_others
       Auditor.fpr_african_american Auditor.fpr_others
       Auditor.tnr_african_american Auditor.tnr_others
       Auditor.selection_rate_african_american Auditor.selection_rate_others
       Auditor.tpr_difference Auditor.fpr_difference Auditor.disparate_impact
       Simplified.selection_rate_aa Simplified.selection_rate_other
       Simplified.disparate_impact Simplified.fpr_aa Simplified.fpr_other
       Simplified.tpr_aa Simplified.tpr_other] in *.

Lemma selection_rate_empty (t : Z) (rs : list Row) :
  len rs = 0%Z -> selection_rate t rs = NaN.
Proof.
  intros H. unfold selection_rate.
  pose proof (count_nonneg (decision_at t) rs).
  pose proof (count_le_len (decision_at t) rs).
  replace (count (decision_at t) rs) with 0%Z by lia. rewrite H. reflexivity.
Qed.

Lemma selection_rate_inhabited (t : Z) (rs : list Row) :
  (0 < len rs)%Z ->
  exists q : Q, selection_rate t rs = Fin q /\ (0 <= q)%Q /\ (q <= 1)%Q.
Proof.
  intros H. unfold selection_rate. rewrite (ratio_pos _ _ H).
  eexists; split; [reflexivity|]. apply quotient_bounds; [|exact H].
  split; [apply count_nonneg|apply count_le_len].
Qed.

(** A selection rate is [nan] or a number of [[0,1]]. *)
Lemma selection_rate_cases (t : Z) (rs : list Row) :
  selection_rate t rs = NaN
  \/ exists q : Q, selection_rate t rs = Fin q /\ (0 <= q)%Q /\ (q <= 1)%Q.
Proof.
  pose proof (len_nonneg rs) as H.
  destruct (Z.eq_dec (len rs) 0) as [E|E].
  - left. now apply selection_rate_empty.
  - right. apply selection_rate_inhabited. lia.
Qed.

Lemma gtb_zero_of_zero (q : Q) : (q == 0)%Q -> (Fin q >? Fin 0) = false.
Proof.
  intros H. unfold F64.gtb, F64.ltb.
  now rewrite (proj1 (Qeq_alt 0 q) (Qeq_sym _ _ H)).
Qed.

Lemma sgn_of_zero (q : Q) : (q == 0)%Q -> F64.sgn q = Eq.
Proof. intros H. unfold F64.sgn. now apply Qeq_alt. Qed.

Lemma sgn_nonneg (q : Q) : (0 <= q)%Q -> F64.sgn q <> Lt.
Proof.
  intros H E. unfold F64.sgn in E. apply Qlt_alt in E.
  exact (Qlt_not_le _ _ E H).
Qed.

(** C10.  In the full auditor, whenever the selection rate of the Others
    cohort is zero, [disparate_impact] is [float('inf')] and the
    demographic-parity assessment of the report evaluates to VIOLATED: the
    infinite value goes through the two comparisons without a special
    case. *)
Theorem infinite_impact_is_violated (rows : list Row) :
  F64.is_zero (Auditor.selection_rate_others (full_metrics rows)) ->
  Auditor.disparate_impact (full_metrics rows) = PInf
  /\ Auditor.demographic_parity_assessment (full_metrics rows)
     = "VIOLATED"%string.
Proof.
  intros H.
  assert (E : Auditor.disparate_impact (full_metrics rows) = PInf).
  { fields. inversion H as [a b Hq Ha Hb| |]; subst.
    now rewrite (gtb_zero_of_zero a Hq). }
  split; [exact E|].
  unfold Auditor.demographic_parity_assessment. now rewrite E.
Qed.

Lemma infinite_impact_is_violated_witness :
  Auditor.disparate_impact (full_metrics [aa 7 true; caucasian 2 false]) = PInf
  /\ Auditor.demographic_parity_assessment
       (full_metrics [aa 7 true; caucasian 2 false]) = "VIOLATED"%string.
Proof.
  apply (infinite_impact_is_violated [aa 7 true; caucasian 2 false]).
  vm_compute. constructor. reflexivity.
Defined.

(** Whenever the selection rate of the Others cohort is zero,
    [calculate_fairness_metrics] takes its [else] branch and yields
    [float('inf')], while [analyze_bias], which computes the same Others
    rate, divides by that zero: NumPy yields [inf] when the African-American
    rate is positive and [nan] when it is zero or itself undefined. *)
Theorem zero_reference_rate_nonfinite
    (rows : list Row) (column : option (list Z)) :
  F64.is_zero (Auditor.selection_rate_others (full_metrics rows)) ->
  Auditor.disparate_impact (full_metrics rows) = PInf
  /\ Simplified.selection_rate_other (simple_metrics rows column)
     = Auditor.selection_rate_others (full_metrics rows)
  /\ F64.is_finite (Simplified.disparate_impact (simple_metrics rows column))
     = false
  /\ (Simplified.disparate_impact (simple_metrics rows column) = PInf
      \/ Simplified.disparate_impact (simple_metrics rows column) = NaN).
Proof.
  intros H. fields.
  inversion H as [a b Hq Ha Hb| |]; subst.
  split; [now rewrite (gtb_zero_of_zero a Hq)|].
  split; [reflexivity|].
  assert (D : selection_rate high_risk_threshold (filter african_american rows)
              / Fin a = PInf
              \/ selection_rate high_risk_threshold
                   (filter african_american rows) / Fin a = NaN).
  { destruct (selection_rate_cases high_risk_threshold
                (filter african_american rows)) as [E|[q [E [Hq0 _]]]];
      rewrite E; unfold F64.div.
    - now right.
    - rewrite (sgn_of_zero a Hq). pose proof (sgn_nonneg q Hq0).
      destruct (F64.sgn q); [now right|contradiction|now left]. }
  split; [|exact D].
  destruct D as [D|D]; now rewrite D.
Qed.

Lemma zero_reference_rate_nonfinite_witness :
  Auditor.disparate_impact (full_metrics [aa 7 true; caucasian 2 false]) = PInf
  /\ F64.is_finite
       (Simplified.disparate_impact
          (simple_metrics [aa 7 true; caucasian 2 false] None)) = false.
Proof.
  destruct (zero_reference_rate_nonfinite
              [aa 7 true; caucasian 2 false] None) as [H1 [_ [H2 _]]].
  - vm_compute. constructor. reflexivity.
  - split; [exact H1|exact H2].
Defined.

(** C1.  A table on which the selection rate of the Others cohort is zero
    and that of the African-American cohort is zero too.
    [calculate_fairness_metrics] tests [selection_rate_others > 0] and
    reports [float('inf')], which its report flags as VIOLATED.
    [analyze_bias] divides the two rates without a test: its disparate
    impact is 0/0 = [nan], not an infinity, and both comparisons of the
    assessment being false on [nan], it prints the OK line. *)
Theorem unguarded_disparate_impact_is_nan :
  let rows := [aa 1 false; caucasian 1 false] in
  F64.is_zero (Simplified.selection_rate_other (simple_metrics rows None))
  /\ Simplified.disparate_impact (simple_metrics rows None) = NaN
  /\ Simplified.demographic_parity_line (simple_metrics rows None)
     = "  OK: Demographic parity acceptable"%string
  /\ F64.is_zero (Auditor.selection_rate_others (full_metrics rows))
  /\ Auditor.disparate_impact (full_metrics rows) = PInf
  /\ Auditor.demographic_parity_assessment (full_metrics rows)
     = "VIOLATED"%string.
Proof.
  cbv zeta.
  repeat split; try reflexivity; vm_compute; constructor; reflexivity.
Qed.

(** ** Empty subsets *)

(** [analyze_bias] reports 0 for a rate whose base subset is empty. *)
Lemma zero_fill_simplified (t : Z) (base : Row -> bool) (rs : list Row) :
  count base rs = 0%Z -> zero_filled_rate t base rs = Fin 0.
Proof. intros H. unfold zero_filled_rate. now rewrite H. Qed.

(** The quotient of [calculate_fairness_metrics] is [nan] there. *)
Lemma no_fill_full (t : Z) (base : Row -> bool) (rs : list Row) :
  count base rs = 0%Z -> conditional_rate t base rs = NaN.
Proof.
  intros H. unfold conditional_rate.
  pose proof (count_nonneg (fun r => base r && decision_at t r) rs).
  pose proof (len_filter_and_le base (decision_at t) rs) as L.
  fold (count (fun r => base r && decision_at t r) rs) in L.
  fold (count base rs) in L.
  replace (count (fun r => base r && decision_at t r) rs) with 0%Z by lia.
  rewrite H. reflexivity.
Qed.

(** C2.  A table whose African-American cohort has no record with
    [two_year_recid == 0].  [analyze_bias] tests [len(...) > 0] and reports a
    false positive rate of 0.  [calculate_fairness_metrics] divides the two
    counts without a test: its false positive rate, its true negative rate
    and its FPR difference are [nan], while its true positive rate for the
    Others cohort, which has no positive record, is zero-filled by
    [recall_score]. *)
Theorem unguarded_false_positive_rate_is_nan :
  let rows := [aa 7 true; caucasian 3 false] in
  count no_recid (filter african_american rows) = 0%Z
  /\ Simplified.fpr_aa (simple_metrics rows None) = Fin 0
  /\ Auditor.fpr_african_american (full_metrics rows) = NaN
  /\ Auditor.tnr_african_american (full_metrics rows) = NaN
  /\ Auditor.fpr_difference (full_metrics rows) = NaN
  /\ Auditor.tpr_others (full_metrics rows) = Fin 0.
Proof. vm_compute. repeat split. Qed.

(** ** The input table *)

(** [analyze_bias] on a frame without a [high_risk] column leaves a frame
    that has one. *)
Lemma analyze_bias_adds_column :
  snd (Simplified.analyze_bias (Simplified.mkFrame [aa 7 true] None))
  <> Simplified.mkFrame [aa 7 true] None.
Proof. vm_compute. discriminate. Qed.

(** C4, amended.  [calculate_fairness_metrics] leaves the auditor and its
    table as they were.  [analyze_bias] assigns the column [high_risk] of the
    frame it is given: the rows are unchanged, the column holds the decisions
    afterwards whatever it held before, and a second call on the resulting
    frame leaves it as it is and returns the same dictionary. *)
Theorem metric_computation_frame
    (self : Auditor.CompasBiasAuditor) (data : Simplified.DataFrame) :
  snd (Auditor.calculate_fairness_metrics self) = self
  /\ let data' := snd (Simplified.analyze_bias data) in
     Simplified.rows data' = Simplified.rows data
     /\ Simplified.high_risk data'
        = Some (map (high_risk_at high_risk_threshold) (Simplified.rows data))
     /\ snd (Simplified.analyze_bias data') = data'
     /\ fst (Simplified.analyze_bias data') = fst (Simplified.analyze_bias data).
Proof. repeat split. Qed.

(** ** Raising the threshold *)

Lemma count_decision_antitone (t1 t2 : Z) (rs : list Row) :
  (t1 <= t2)%Z ->
  (count (decision_at t2) rs <= count (decision_at t1) rs)%Z.
Proof.
  intros H. unfold count, len, decision_at.
  induction rs as [|r rs IH]; simpl; [lia|].
  destruct (Z.leb_spec t2 (decile_score r)), (Z.leb_spec t1 (decile_score r));
    cbn [List.length]; lia.
Qed.

Lemma quotient_monotone (a b n : Z) :
  (a <= b)%Z -> (0 < n)%Z ->
  (inject_Z a / inject_Z n <= inject_Z b / inject_Z n)%Q.
Proof.
  intros Hab Hn. unfold Qdiv. apply Qmult_le_compat_r.
  - unfold Qle, inject_Z; simpl. lia.
  - apply Qinv_le_0_compat. apply Qlt_le_weak. now apply inject_Z_pos.
Qed.

Lemma selection_rate_not_increased (t1 t2 : Z) (rs : list Row) :
  (t1 <= t2)%Z ->
  not_increased (selection_rate t1 rs) (selection_rate t2 rs).
Proof.
  intros H. pose proof (len_nonneg rs) as Hl.
  destruct (Z.eq_dec (len rs) 0) as [E|E].
  - rewrite !(selection_rate_empty _ rs E). split.
    + intros F. inversion F.
    + intros F. now contradiction F.
  - assert (Hn : (0 < len rs)%Z) by lia.
    unfold selection_rate. rewrite !(ratio_pos _ _ Hn).
    pose proof (quotient_monotone _ _ _
                  (count_decision_antitone t1 t2 rs H) Hn) as Q.
    split.
    + intros F. inversion F as [a b L| | |]; subst.
      exact (Qlt_not_le _ _ L Q).
    + intros _. now constructor.
Qed.

(** C9.  For every population and every pair of thresholds [t1 <= t2], each
    cohort's selection rate computed with the threshold [t2] is not above the
    one computed with [t1], in both scripts: it is lower or equal when the
    cohort has a record, and both are [nan] when it has none. *)
Theorem selection_rate_antitone
    (rows : list Row) (column : option (list Z)) (t1 t2 : Z) :
  (t1 <= t2)%Z ->
  let full t :=
    fst (Auditor.calculate_fairness_metrics_at t (Auditor.mkAuditor rows)) in
  let simple t :=
    fst (Simplified.analyze_bias_at t (Simplified.mkFrame rows column)) in
  not_increased (Auditor.selection_rate_african_american (full t1))
                (Auditor.selection_rate_african_american (full t2))
  /\ not_increased (Auditor.selection_rate_others (full t1))
                   (Auditor.selection_rate_others (full t2))
  /\ not_increased (Simplified.selection_rate_aa (simple t1))
                   (Simplified.selection_rate_aa (simple t2))
  /\ not_increased (Simplified.selection_rate_other (simple t1))
                   (Simplified.selection_rate_other (simple t2)).
Proof.
  intros H full simple. unfold full, simple. fields.
  repeat split; try (apply selection_rate_not_increased; exact H);
    now apply (selection_rate_not_increased t1 t2).
Qed.

Lemma selection_rate_antitone_witness :
  not_increased
    (Auditor.selection_rate_african_american
       (fst (Auditor.calculate_fairness_metrics_at 5
               (Auditor.mkAuditor [aa 7 true; aa 5 false; caucasian 6 true]))))
    (Auditor.selection_rate_african_american
       (fst (Auditor.calculate_fairness_metrics_at 6
               (Auditor.mkAuditor [aa 7 true; aa 5 false; caucasian 6 true])))).
Proof.
  apply (selection_rate_antitone
           [aa 7 true; aa 5 false; caucasian 6 true] None 5 6).
  lia.
Defined.

(** ** Rates lie in the unit interval *)

Lemma conditional_rate_in_unit (t : Z) (base : Row -> bool) (rs : list Row) :
  (0 < count base rs)%Z -> F64.in_unit (conditional_rate t base rs).
Proof.
  intros H. unfold conditional_rate. apply ratio_in_unit; [|exact H].
  split; [apply count_nonneg|apply len_filter_and_le].
Qed.

Lemma zero_filled_rate_in_unit (t : Z) (base : Row -> bool) (rs : list Row) :
  F64.in_unit (zero_filled_rate t base rs).
Proof.
  unfold zero_filled_rate.
  destruct (Z.ltb_spec 0 (count base rs)) as [H|H].
  - now apply conditional_rate_in_unit.
  - apply in_unit_zero.
Qed.

Lemma selection_rate_in_unit (t : Z) (rs : list Row) :
  (0 < len rs)%Z -> F64.in_unit (selection_rate t rs).
Proof.
  intros H. destruct (selection_rate_inhabited t rs H) as [q [E [H0 H1]]].
  rewrite E. split; now constructor.
Qed.

Lemma complement_in_unit (x : float) :
  F64.in_unit x -> F64.in_unit (Fin 1 - x).
Proof.
  intros [H0 H1].
  inversion H0 as [a b L0 Ha Hb|y N E|y N E]; subst;
    inversion H1 as [a' c L1 Ha' Hc|y' N' E'|y' N' E']; subst.
  cbn [F64.sub]. split; constructor; lra.
Qed.

Lemma np_sum_bool_nonneg (l : list bool) : (0 <= np_sum_bool l)%Z.
Proof.
  unfold np_sum_bool, np_sum.
  induction l as [|b l IH]; cbn [map fold_right]; [lia|].
  destruct b; cbn [astype_int]; lia.
Qed.

Lemma prf_divide_in_unit (n d : Z) :
  (0 <= n <= d)%Z -> F64.in_unit (Sklearn.prf_divide n d).
Proof.
  intros H. unfold Sklearn.prf_divide.
  destruct (Z.eqb_spec d 0) as [E|E]; [apply in_unit_zero|].
  apply ratio_in_unit; lia.
Qed.

Lemma sklearn_scores_in_unit (y_true y_pred : list Z) :
  F64.in_unit (Sklearn.precision_score y_true y_pred)
  /\ F64.in_unit (Sklearn.recall_score y_true y_pred)
  /\ F64.in_unit (Sklearn.f1_score y_true y_pred).
Proof.
  unfold Sklearn.precision_score, Sklearn.recall_score, Sklearn.f1_score.
  pose proof (np_sum_bool_nonneg
    (and_ (map Sklearn.is1 y_true) (map Sklearn.is1 y_pred))) as Htp.
  pose proof (np_sum_bool_nonneg
    (and_ (map Sklearn.is1 y_true) (map Sklearn.not1 y_pred))) as Hfn.
  pose proof (np_sum_bool_nonneg
    (and_ (map Sklearn.not1 y_true) (map Sklearn.is1 y_pred))) as Hfp.
  fold (Sklearn.count2 Sklearn.is1 Sklearn.is1 y_true y_pred) in Htp.
  fold (Sklearn.count2 Sklearn.is1 Sklearn.not1 y_true y_pred) in Hfn.
  fold (Sklearn.count2 Sklearn.not1 Sklearn.is1 y_true y_pred) in Hfp.
  fold Sklearn.tp in Htp. fold Sklearn.fn in Hfn. fold Sklearn.fp in Hfp.
  repeat split; apply prf_divide_in_unit; lia.
Qed.

Lemma accuracy_score_in_unit (f g : Row -> Z) (rows : list Row) :
  (0 < len rows)%Z ->
  F64.in_unit (Sklearn.accuracy_score (map f rows) (map g rows)).
Proof.
  intros H. unfold Sklearn.accuracy_score, np_mean.
  rewrite np_sum_indicator, !len_map, combine_map, len_map.
  fold (ratio (len (filter (fun p : Z * Z => (fst p =? snd p)%Z)
                           (map (fun x => (f x, g x)) rows)))
              (len rows)).
  apply ratio_in_unit; [|exact H].
  pose proof (len_filter_le (fun p : Z * Z => (fst p =? snd p)%Z)
                (map (fun x => (f x, g x)) rows)) as L.
  now rewrite len_map in L.
Qed.

Lemma count_pos_len (p : Row -> bool) (rs : list Row) :
  (0 < count p rs)%Z -> (0 < len rs)%Z.
Proof. intros H. pose proof (count_le_len p rs). lia. Qed.

Lemma quotient_nonneg (a b : Q) :
  (0 <= a)%Q -> (0 <= b)%Q -> (0 <= a / b)%Q.
Proof.
  intros Ha Hb. unfold Qdiv.
  apply Qmult_le_0_compat; [exact Ha|now apply Qinv_le_0_compat].
Qed.

(** The disparate impact of [calculate_fairness_metrics] when both selection
    rates are numbers. *)
Lemma guarded_impact_defined (a b : Q) :
  (0 <= a)%Q -> (0 <= b)%Q ->
  impact_defined (if Fin b >? Fin 0 then Fin a / Fin b else PInf).
Proof.
  intros Ha Hb. destruct (Fin b >? Fin 0) eqn:E; [|now right].
  left. apply gtb_flt in E. inversion E as [x y L| | |]; subst.
  unfold F64.div, F64.sgn. rewrite (proj1 (Qgt_alt b 0) L).
  eexists; split; [reflexivity|]. now apply quotient_nonneg.
Qed.

(** The disparate impact of [analyze_bias] when both selection rates are
    numbers and not both are zero. *)
Lemma unguarded_impact_defined (a b : Q) :
  (0 <= a)%Q -> (0 <= b)%Q -> ~ ((a == 0)%Q /\ (b == 0)%Q) ->
  impact_defined (Fin a / Fin b).
Proof.
  intros Ha Hb N. unfold F64.div.
  pose proof (sgn_nonneg a Ha) as Sa. pose proof (sgn_nonneg b Hb) as Sb.
  destruct (F64.sgn b) eqn:Eb; [|contradiction|].
  - destruct (F64.sgn a) eqn:Ea; [|contradiction|now right].
    exfalso. apply N. unfold F64.sgn in *. split; now apply Qeq_alt.
  - left. eexists; split; [reflexivity|]. now apply quotient_nonneg.
Qed.

(** A non-empty population with an empty Others cohort: that cohort's
    selection rate is [nan] in both scripts, so not every rate-valued field
    lies in [[0,1]], and the disparate impact of [analyze_bias] is [nan]. *)
Lemma empty_cohort_rate_is_nan :
  let rows := [aa 7 true] in
  rows <> []
  /\ Auditor.selection_rate_others (full_metrics rows) = NaN
  /\ Simplified.selection_rate_other (simple_metrics rows None) = NaN
  /\ ~ Forall F64.in_unit (full_rates (full_metrics rows))
  /\ ~ Forall F64.in_unit (simple_rates (simple_metrics rows None))
  /\ ~ impact_defined (Simplified.disparate_impact (simple_metrics rows None)).
Proof.
  assert (N : ~ F64.in_unit NaN).
  { intros [H _]. inversion H. }
  cbv zeta. split; [discriminate|]. split; [reflexivity|].
  split; [reflexivity|]. split; [|split].
  - intros H. apply Forall_forall with (x := NaN) in H; [exact (N H)|].
    vm_compute. tauto.
  - intros H. apply Forall_forall with (x := NaN) in H; [exact (N H)|].
    vm_compute. tauto.
  - vm_compute. intros [[q [E _]]|E]; discriminate E.
Qed.

(** C3, amended.  For every population in which both cohorts have a record:
    the selection rates, the true positive rates, accuracy, precision, recall
    and F1 of [calculate_fairness_metrics] and all six rates of
    [analyze_bias] lie in [[0,1]]; the false positive rate and the true
    negative rate that [calculate_fairness_metrics] reports for a cohort lie
    in [[0,1]] when that cohort has a record with [two_year_recid == 0]; the
    disparate impact of [calculate_fairness_metrics] is a number of
    [[0,inf)] or [+inf]; that of [analyze_bias] is too, unless both selection
    rates are zero. *)
Theorem rates_in_unit_interval
    (rows : list Row) (column : option (list Z)) :
  (0 < count african_american rows)%Z ->
  (0 < count others rows)%Z ->
  let mf := full_metrics rows in
  let ms := simple_metrics rows column in
  Forall F64.in_unit
    [ Auditor.accuracy mf; Auditor.precision mf; Auditor.recall mf;
      Auditor.f1 mf; Auditor.tpr_african_american mf; Auditor.tpr_others mf;
      Auditor.selection_rate_african_american mf;
      Auditor.selection_rate_others mf ]
  /\ Forall F64.in_unit (simple_rates ms)
  /\ ((0 < count no_recid (filter african_american rows))%Z ->
      F64.in_unit (Auditor.fpr_african_american mf)
      /\ F64.in_unit (Auditor.tnr_african_american mf))
  /\ ((0 < count no_recid (filter others rows))%Z ->
      F64.in_unit (Auditor.fpr_others mf)
      /\ F64.in_unit (Auditor.tnr_others mf))
  /\ impact_defined (Auditor.disparate_impact mf)
  /\ (~ (F64.is_zero (Simplified.selection_rate_aa ms)
         /\ F64.is_zero (Simplified.selection_rate_other ms)) ->
      impact_defined (Simplified.disparate_impact ms)).
Proof.
  intros HA HO mf ms. unfold mf, ms, simple_rates. fields.
  unfold count in HA, HO.
  pose proof (count_pos_len african_american rows HA) as HL.
  destruct (selection_rate_inhabited high_risk_threshold _ HA)
    as [a [Ea [Ha0 Ha1]]].
  destruct (selection_rate_inhabited high_risk_threshold _ HO)
    as [b [Eb [Hb0 Hb1]]].
  destruct (sklearn_scores_in_unit
              (outcomes rows) (decisions high_risk_threshold rows))
    as [P [R F]].
  split; [|split; [|split; [|split; [|split]]]].
  - repeat apply Forall_cons; try apply Forall_nil; try assumption;
      try apply zero_filled_rate_in_unit;
      try (apply selection_rate_in_unit; assumption).
    now apply accuracy_score_in_unit.
  - repeat apply Forall_cons; try apply Forall_nil;
      try apply zero_filled_rate_in_unit;
      apply selection_rate_in_unit; assumption.
  - intros H. split; [|apply complement_in_unit];
      now apply conditional_rate_in_unit.
  - intros H. split; [|apply complement_in_unit];
      now apply conditional_rate_in_unit.
  - rewrite Ea, Eb. now apply guarded_impact_defined.
  - intros N. rewrite Ea, Eb in *. apply unguarded_impact_defined; trivial.
    intros [Za Zb]. apply N. split; now constructor.
Qed.

Lemma rates_in_unit_interval_witness :
  let rows := [aa 7 true; aa 3 false; caucasian 6 false; caucasian 2 true] in
  Forall F64.in_unit (simple_rates (simple_metrics rows None))
  /\ F64.in_unit (Auditor.fpr_african_american (full_metrics rows))
  /\ impact_defined (Auditor.disparate_impact (full_metrics rows))
  /\ impact_defined (Simplified.disparate_impact (simple_metrics rows None)).
Proof.
  cbv zeta.
  destruct (rates_in_unit_interval
              [aa 7 true; aa 3 false; caucasian 6 false; caucasian 2 true]
              None) as [_ [S [FA [_ [DF DS]]]]].
  - vm_compute. reflexivity.
  - vm_compute. reflexivity.
  - split; [exact S|]. split; [apply FA; vm_compute; reflexivity|].
    split; [exact DF|]. apply DS.
    intros [Z _]. vm_compute in Z. inversion Z as [a b E Ha Hb| |]; subst.
    vm_compute in E. discriminate E.
Defined.

(** ** Cohorts with the same distribution *)

(** The counts of a cohort, by (decision, outcome) cell. *)
Lemma cohort_counts (t : Z) (c : Row -> bool) (rows : list Row) :
  let n d o := cell t c d o rows in
  len (filter c rows)
  = (n true true + n true false + n false true + n false false)%Z
  /\ count (decision_at t) (filter c rows) = (n true true + n true false)%Z
  /\ count recid (filter c rows) = (n true true + n false true)%Z
  /\ count (fun r => recid r && decision_at t r) (filter c rows) = n true true
  /\ count no_recid (filter c rows) = (n true false + n false false)%Z
  /\ count (fun r => no_recid r && decision_at t r) (filter c rows)
     = n true false.
Proof.
  cbv zeta. rewrite !count_filter. unfold cell, count, len, recid, no_recid.
  induction rows as [|r rows IH]; [cbn; lia|].
  cbn [filter].
  destruct (c r), (decision_at t r), (two_year_recid r);
    cbn [andb negb Bool.eqb List.length]; lia.
Qed.

Lemma quotient_eq (a b c d : Z) :
  (0 < b)%Z -> (0 < d)%Z -> (a * d = c * b)%Z ->
  (inject_Z a / inject_Z b == inject_Z c / inject_Z d)%Q.
Proof.
  intros Hb Hd H.
  destruct b as [|pb|pb]; try lia. destruct d as [|pd|pd]; try lia.
  unfold Qeq, Qdiv, Qmult, Qinv, inject_Z. simpl. lia.
Qed.

Lemma cross_proportion (a b c d m n : Z) :
  (0 < m)%Z -> (a * n = b * m)%Z -> (c * n = d * m)%Z ->
  (a * d = b * c)%Z.
Proof.
  intros Hm H1 H2. apply (Z.mul_reg_r _ _ m); [lia|].
  transitivity (a * (d * m))%Z; [ring|]. rewrite <- H2.
  transitivity (a * n * c)%Z; [ring|]. rewrite H1. ring.
Qed.

Lemma abs_difference_zero (a b : Q) :
  (a == b)%Q -> F64.is_zero (F64.abs (Fin a - Fin b)).
Proof.
  intros H. cbn [F64.sub F64.abs]. constructor.
  assert (E : (a - b == 0)%Q) by lra. now rewrite E.
Qed.

Lemma quotient_of_equal (a b : Q) :
  (a == b)%Q -> (0 < b)%Q -> F64.feq (Fin a / Fin b) (Fin 1).
Proof.
  intros H L. unfold F64.div, F64.sgn. rewrite (proj1 (Qgt_alt b 0) L).
  constructor. rewrite H. apply Qmult_inv_r. lra.
Qed.

Section Proportional.

Variables (t : Z) (base : Row -> bool) (A B : list Row) (m n : Z).

Hypothesis m_pos : (0 < m)%Z.
Hypothesis n_pos : (0 < n)%Z.
Hypothesis base_prop : (count base A * n = count base B * m)%Z.
Hypothesis hit_prop :
  (count (fun r => base r && decision_at t r) A * n
   = count (fun r => base r && decision_at t r) B * m)%Z.

Lemma base_pos_iff : (0 < count base A)%Z <-> (0 < count base B)%Z.
Proof.
  pose proof (count_nonneg base A). pose proof (count_nonneg base B).
  split; intros H1; nia.
Qed.

Lemma conditional_rate_eq :
  (0 < count base B)%Z ->
  exists x y : Q,
    conditional_rate t base A = Fin x /\ conditional_rate t base B = Fin y
    /\ (x == y)%Q.
Proof.
  intros HB. pose proof (proj2 base_pos_iff HB) as HA.
  unfold conditional_rate. rewrite (ratio_pos _ _ HA), (ratio_pos _ _ HB).
  eexists; eexists; split; [reflexivity|]. split; [reflexivity|].
  apply quotient_eq; trivial.
  exact (cross_proportion _ _ _ _ m n m_pos hit_prop base_prop).
Qed.

Lemma zero_filled_rate_eq :
  exists x y : Q,
    zero_filled_rate t base A = Fin x /\ zero_filled_rate t base B = Fin y
    /\ (x == y)%Q.
Proof.
  unfold zero_filled_rate.
  destruct (Z.ltb_spec 0 (count base B)) as [HB|HB].
  - rewrite (proj2 (Z.ltb_lt _ _) (proj2 base_pos_iff HB)).
    now apply conditional_rate_eq.
  - destruct (Z.ltb_spec 0 (count base A)) as [HA|HA].
    + apply base_pos_iff in HA. lia.
    + exists 0%Q, 0%Q. repeat split; reflexivity.
Qed.

End Proportional.

(** Two cohorts of one record each, both with a score below the threshold
    and no recidivism: the distributions are identical, both selection rates
    are zero, and the disparate impact is [inf] in
    [calculate_fairness_metrics] and [nan] in [analyze_bias], not 1. *)
Lemma identical_cohorts_zero_rate :
  let rows := [aa 1 false; caucasian 1 false] in
  same_distribution high_risk_threshold rows
  /\ Auditor.disparate_impact (full_metrics rows) = PInf
  /\ Simplified.disparate_impact (simple_metrics rows None) = NaN
  /\ ~ F64.feq (Auditor.disparate_impact (full_metrics rows)) (Fin 1)
  /\ ~ F64.feq (Simplified.disparate_impact (simple_metrics rows None))
               (Fin 1).
Proof.
  cbv zeta. split; [|split; [reflexivity|split; [reflexivity|split]]].
  - split; [reflexivity|]. split; [reflexivity|].
    intros [|] [|]; reflexivity.
  - intros H. vm_compute in H. inversion H.
  - intros H. vm_compute in H. inversion H.
Qed.

(** C8, amended.  For every population whose two cohorts have the same
    distribution of (decision, outcome) pairs and a common selection rate
    that is not zero: the disparate impact equals 1 in both scripts, the
    true positive rates of the two cohorts differ by 0 in both scripts, the
    false positive rates of [analyze_bias] differ by 0, and so do those of
    [calculate_fairness_metrics] when the cohorts have a record with
    [two_year_recid == 0]. *)
Theorem identical_cohorts_unit_impact
    (rows : list Row) (column : option (list Z)) :
  same_distribution high_risk_threshold rows ->
  ~ F64.is_zero (Auditor.selection_rate_others (full_metrics rows)) ->
  let mf := full_metrics rows in
  let ms := simple_metrics rows column in
  F64.feq (Auditor.disparate_impact mf) (Fin 1)
  /\ F64.feq (Simplified.disparate_impact ms) (Fin 1)
  /\ F64.is_zero (Auditor.tpr_difference mf)
  /\ F64.is_zero (F64.abs (Simplified.tpr_aa ms - Simplified.tpr_other ms))
  /\ F64.is_zero (F64.abs (Simplified.fpr_aa ms - Simplified.fpr_other ms))
  /\ ((0 < count no_recid (filter others rows))%Z ->
      F64.is_zero (Auditor.fpr_difference mf)).
Proof.
  intros [HA [HB P]] NZ mf ms. unfold mf, ms. fields.
  set (t := high_risk_threshold) in *.
  set (A := filter african_american rows) in *.
  set (B := filter others rows) in *.
  unfold count in HA, HB. fold A in HA. fold B in HB.
  destruct (cohort_counts t african_american rows)
    as [LA [DA [RA [RDA [NA NDA]]]]].
  destruct (cohort_counts t others rows) as [LB [DB [RB [RDB [NB NDB]]]]].
  cbv zeta in LA, LB. fold A in LA, DA, RA, RDA, NA, NDA.
  fold B in LB, DB, RB, RDB, NB, NDB.
  pose proof (P true true) as Ptt. pose proof (P true false) as Ptf.
  pose proof (P false true) as Pft. pose proof (P false false) as Pff.
  change (count others rows) with (len B) in Ptt, Ptf, Pft, Pff.
  change (count african_american rows) with (len A) in Ptt, Ptf, Pft, Pff.
  (* selection rates *)
  assert (S : exists a b : Q,
             selection_rate t A = Fin a /\ selection_rate t B = Fin b
             /\ (a == b)%Q /\ (0 <= b)%Q).
  { unfold selection_rate. rewrite (ratio_pos _ _ HA), (ratio_pos _ _ HB).
    eexists; eexists. split; [reflexivity|]. split; [reflexivity|]. split.
    - apply quotient_eq; trivial. rewrite DA, DB. nia.
    - apply quotient_bounds; [|exact HB].
      split; [apply count_nonneg|apply count_le_len]. }
  destruct S as [a [b [Ea [Eb [Eab Hb]]]]]. rewrite Ea, Eb in *.
  assert (Lb : (0 < b)%Q).
  { destruct (Qlt_le_dec 0 b) as [L|L]; [exact L|].
    exfalso. apply NZ. constructor. lra. }
  (* true and false positive rates *)
  destruct (zero_filled_rate_eq t recid A B (len A) (len B) HA HB)
    as [x [y [Ex [Ey Exy]]]]; [rewrite RA, RB; nia|rewrite RDA, RDB; nia|].
  destruct (zero_filled_rate_eq t no_recid A B (len A) (len B) HA HB)
    as [u [v [Eu [Ev Euv]]]]; [rewrite NA, NB; nia|rewrite NDA, NDB; nia|].
  rewrite Ex, Ey, Eu, Ev.
  split; [|split; [|split; [|split; [|split]]]].
  - rewrite (proj2 (gtb_flt (Fin b) (Fin 0))); [|now constructor].
    now apply quotient_of_equal.
  - now apply quotient_of_equal.
  - now apply abs_difference_zero.
  - now apply abs_difference_zero.
  - now apply abs_difference_zero.
  - intros HN.
    destruct (conditional_rate_eq t no_recid A B (len A) (len B) HA HB)
      as [p [q [Ep [Eq' Epq]]]];
      [rewrite NA, NB; nia|rewrite NDA, NDB; nia|exact HN|].
    rewrite Ep, Eq'. now apply abs_difference_zero.
Qed.

Lemma identical_cohorts_unit_impact_witness :
  let rows := [aa 7 true; aa 2 false; caucasian 8 true; caucasian 1 false] in
  F64.feq (Auditor.disparate_impact (full_metrics rows)) (Fin 1)
  /\ F64.feq (Simplified.disparate_impact (simple_metrics rows None)) (Fin 1)
  /\ F64.is_zero (Auditor.tpr_difference (full_metrics rows))
  /\ F64.is_zero (Auditor.fpr_difference (full_metrics rows)).
Proof.
  cbv zeta.
  destruct (identical_cohorts_unit_impact
              [aa 7 true; aa 2 false; caucasian 8 true; caucasian 1 false]
              None) as [D1 [D2 [T1 [_ [_ F1]]]]].
  - split; [reflexivity|]. split; [reflexivity|].
    intros [|] [|]; reflexivity.
  - intros H. vm_compute in H. inversion H as [a b E Ha Hb| |]; subst.
    vm_compute in E. discriminate E.
  - split; [exact D1|]. split; [exact D2|]. split; [exact T1|].
    apply F1. reflexivity.
Defined.

(** ** The two scripts on one table *)

Lemma conditional_rate_is_nan (t : Z) (base : Row -> bool) (rs : list Row) :
  F64.is_nan (conditional_rate t base rs) = negb (0 <? count base rs)%Z.
Proof.
  pose proof (count_nonneg base rs) as H.
  destruct (Z.ltb_spec 0 (count base rs)) as [L|L].
  - unfold conditional_rate. now rewrite (ratio_pos _ _ L).
  - rewrite no_fill_full; [reflexivity|lia].
Qed.

Lemma zero_filled_of_conditional (t : Z) (base : Row -> bool) (rs : list Row) :
  zero_filled_rate t base rs
  = if F64.is_nan (conditional_rate t base rs) then Fin 0
    else conditional_rate t base rs.
Proof.
  rewrite conditional_rate_is_nan. unfold zero_filled_rate.
  now destruct (0 <? count base rs)%Z.
Qed.

(** X1.  On one table, [analyze_bias] and [calculate_fairness_metrics]
    report the same selection rates and the same true positive rates
    (the guarded mean of the first is the [recall_score] of the second), and
    the false positive rate of [analyze_bias] is that of
    [calculate_fairness_metrics] with [nan] replaced by 0. *)
Theorem scripts_agree_on_rates (rows : list Row) (column : option (list Z)) :
  let mf := full_metrics rows in
  let ms := simple_metrics rows column in
  Simplified.selection_rate_aa ms = Auditor.selection_rate_african_american mf
  /\ Simplified.selection_rate_other ms = Auditor.selection_rate_others mf
  /\ Simplified.tpr_aa ms = Auditor.tpr_african_american mf
  /\ Simplified.tpr_other ms = Auditor.tpr_others mf
  /\ Simplified.fpr_aa ms
     = (if F64.is_nan (Auditor.fpr_african_american mf) then Fin 0
        else Auditor.fpr_african_american mf)
  /\ Simplified.fpr_other ms
     = (if F64.is_nan (Auditor.fpr_others mf) then Fin 0
        else Auditor.fpr_others mf).
Proof.
  intros mf ms. unfold mf, ms. fields.
  repeat split; apply zero_filled_of_conditional.
Qed.

(** X2.  The two scripts report the same disparate impact exactly when the
    selection rate of the Others cohort is a positive number, or is zero
    while that of the African-American cohort is a positive number.  In
    every other case (an empty Others cohort; a zero Others rate with a zero
    or undefined African-American rate) [calculate_fairness_metrics] says
    [inf] and [analyze_bias] says [nan]. *)
Theorem scripts_agree_on_impact (rows : list Row) (column : option (list Z)) :
  let mf := full_metrics rows in
  let ms := simple_metrics rows column in
  let agree :=
    F64.flt (Fin 0) (Auditor.selection_rate_others mf)
    \/ (F64.is_zero (Auditor.selection_rate_others mf)
        /\ F64.flt (Fin 0) (Auditor.selection_rate_african_american mf)) in
  (Simplified.disparate_impact ms = Auditor.disparate_impact mf <-> agree)
  /\ (~ agree ->
      Auditor.disparate_impact mf = PInf
      /\ Simplified.disparate_impact ms = NaN).
Proof.
  intros mf ms agree. unfold agree, mf, ms. clear agree mf ms. fields.
  set (sa := selection_rate high_risk_threshold (filter african_american rows)).
  set (so := selection_rate high_risk_threshold (filter others rows)).
  destruct (selection_rate_cases high_risk_threshold (filter others rows))
    as [Eo|[b [Eo [Hb0 _]]]]; fold so in Eo; rewrite Eo.
  - (* no record in the Others cohort *)
    assert (N : ~ (F64.flt (Fin 0) NaN
                   \/ F64.is_zero NaN /\ F64.flt (Fin 0) sa)).
    { intros [H|[H _]]; inversion H. }
    cbn [F64.gtb F64.ltb].
    assert (D : sa / NaN = NaN) by now destruct sa.
    rewrite D. split; [split; [discriminate|intros H; contradiction]|].
    intros _. now split.
  - destruct (Qlt_le_dec 0 b) as [L|L].
    + (* a positive Others rate *)
      rewrite (proj2 (gtb_flt (Fin b) (Fin 0))); [|now constructor].
      split; [split; [intros _; left; now constructor|reflexivity]|].
      intros N. exfalso. apply N. left. now constructor.
    + (* a zero Others rate *)
      assert (Z0 : (b == 0)%Q) by lra.
      rewrite (gtb_zero_of_zero b Z0).
      destruct (selection_rate_cases high_risk_threshold
                  (filter african_american rows)) as [Ea|[a [Ea [Ha0 _]]]];
        fold sa in Ea; rewrite Ea.
      * cbn [F64.div]. split.
        -- split; [discriminate|].
           intros [H|[_ H]]; inversion H; subst; lra.
        -- intros _. now split.
      * unfold F64.div. rewrite (sgn_of_zero b Z0).
        destruct (Qlt_le_dec 0 a) as [La|La].
        -- unfold F64.sgn. rewrite (proj1 (Qgt_alt a 0) La). split.
           ++ split; [intros _|reflexivity].
              right. split; now constructor.
           ++ intros N. exfalso. apply N. right. split; now constructor.
        -- assert (Za : (a == 0)%Q) by lra. rewrite (sgn_of_zero a Za).
           split.
           ++ split; [discriminate|].
              intros [H|[_ H]]; inversion H; subst; lra.
           ++ intros _. now split.
Qed.

(** ** A table on which nobody is classified high-risk *)

Lemma count_none (p : Row -> bool) (rs : list Row) :
  (forall r, In r rs -> p r = false) -> count p rs = 0%Z.
Proof.
  intros H. unfold count, len.
  induction rs as [|r rs IH]; [reflexivity|].
  cbn [filter]. rewrite (H r (or_introl eq_refl)).
  apply IH. intros x Hx. apply H. now right.
Qed.

Lemma selection_rate_nobody (t : Z) (rs : list Row) :
  (0 < len rs)%Z -> (forall r, In r rs -> (decile_score r < t)%Z) ->
  exists q : Q, selection_rate t rs = Fin q /\ (q == 0)%Q.
Proof.
  intros L H. unfold selection_rate.
  rewrite (count_none (decision_at t) rs), (ratio_pos _ _ L).
  - eexists; split; [reflexivity|]. unfold Qdiv. apply Qmult_0_l.
  - intros r Hr. unfold decision_at. apply Z.leb_gt. now apply H.
Qed.

(** X3.  On a table in which both cohorts have a record and no score
    reaches the threshold 5, both selection rates are zero and the two
    scripts give opposite verdicts: [calculate_fairness_metrics] reports a
    disparate impact of [inf], which the report flags as VIOLATED, while
    [analyze_bias] computes 0/0 = [nan] and prints the OK line. *)
Theorem nobody_flagged_opposite_verdicts
    (rows : list Row) (column : option (list Z)) :
  (0 < count african_american rows)%Z ->
  (0 < count others rows)%Z ->
  (forall r, In r rows -> (decile_score r < 5)%Z) ->
  let mf := full_metrics rows in
  let ms := simple_metrics rows column in
  F64.is_zero (Auditor.selection_rate_african_american mf)
  /\ F64.is_zero (Auditor.selection_rate_others mf)
  /\ Auditor.disparate_impact mf = PInf
  /\ Auditor.demographic_parity_assessment mf = "VIOLATED"%string
  /\ Simplified.disparate_impact ms = NaN
  /\ Simplified.demographic_parity_line ms
     = "  OK: Demographic parity acceptable"%string.
Proof.
  intros HA HO H mf ms.
  assert (sub : forall p r, In r (filter p rows) -> (decile_score r < 5)%Z).
  { intros p r Hr. apply filter_In in Hr. now apply H. }
  destruct (selection_rate_nobody high_risk_threshold _ HA (sub _))
    as [a [Ea Za]].
  destruct (selection_rate_nobody high_risk_threshold _ HO (sub _))
    as [b [Eb Zb]].
  assert (DF : Auditor.disparate_impact mf = PInf).
  { unfold mf. fields. rewrite Eb. now rewrite (gtb_zero_of_zero b Zb). }
  assert (DS : Simplified.disparate_impact ms = NaN).
  { unfold ms. fields. rewrite Ea, Eb. unfold F64.div.
    now rewrite (sgn_of_zero b Zb), (sgn_of_zero a Za). }
  split; [unfold mf; fields; rewrite Ea; now constructor|].
  split; [unfold mf; fields; rewrite Eb; now constructor|].
  split; [exact DF|].
  split; [unfold Auditor.demographic_parity_assessment; now rewrite DF|].
  split; [exact DS|].
  unfold Simplified.demographic_parity_line. now rewrite DS.
Qed.

Lemma nobody_flagged_opposite_verdicts_witness :
  let rows := [aa 4 true; caucasian 2 false] in
  Auditor.demographic_parity_assessment (full_metrics rows)
  = "VIOLATED"%string
  /\ Simplified.demographic_parity_line (simple_metrics rows None)
     = "  OK: Demographic parity acceptable"%string.
Proof.
  cbv zeta.
  destruct (nobody_flagged_opposite_verdicts
              [aa 4 true; caucasian 2 false] None)
    as [_ [_ [_ [V [_ O]]]]].
  - reflexivity.
  - reflexivity.
  - intros r [E|[E|[]]]; subst r; simpl; lia.
  - split; [exact V|exact O].
Defined.

(** ** The plotted values and the overview counts *)

Lemma filter_filter {A : Type} (p q : A -> bool) (l : list A) :
  filter q (filter p l) = filter (fun x => p x && q x) l.
Proof.
  induction l as [|x l IH]; simpl; [reflexivity|].
  destruct (p x); simpl; [destruct (q x); simpl|]; now rewrite IH.
Qed.

Lemma ge5_mean_selection_rate (rs : list Row) :
  Simplified.ge5_mean rs = selection_rate high_risk_threshold rs.
Proof. apply np_mean_decisions. Qed.

Lemma guarded_bar (c : Row -> bool) (rows : list Row) :
  (if (0 <? len (filter (fun r => c r && negb (two_year_recid r)) rows))%Z
   then Simplified.ge5_mean
          (filter (fun r => c r && negb (two_year_recid r)) rows)
   else F64.of_int 0)
  = zero_filled_rate high_risk_threshold no_recid (filter c rows).
Proof.
  change (fun r => c r && negb (two_year_recid r))
    with (fun r => c r && no_recid r).
  rewrite <- filter_filter, ge5_mean_selection_rate, selection_rate_filter.
  reflexivity.
Qed.

(** X4.  The bars that [create_visualizations] draws are the numbers that
    [analyze_bias] reports: the two high-risk classification rates are the
    two selection rates, and the two false positive rates, computed from
    [decile_score >= 5] under a combined mask, are [fpr_aa] and
    [fpr_other], zero-filled alike.  This holds whether or not the frame
    already carries the [high_risk] column. *)
Theorem plotted_bars_are_the_metrics (data : Simplified.DataFrame) :
  let bars := Simplified.create_visualizations data in
  let ms := fst (Simplified.analyze_bias data) in
  Simplified.high_risk_aa bars = Simplified.selection_rate_aa ms
  /\ Simplified.high_risk_other bars = Simplified.selection_rate_other ms
  /\ Simplified.bar_fpr_aa bars = Simplified.fpr_aa ms
  /\ Simplified.bar_fpr_other bars = Simplified.fpr_other ms.
Proof.
  destruct data as [rows column]. intros bars ms. unfold bars, ms.
  fields. unfold Simplified.create_visualizations.
  cbn [Simplified.rows Simplified.high_risk_aa Simplified.high_risk_other
       Simplified.bar_fpr_aa Simplified.bar_fpr_other].
  split; [apply ge5_mean_selection_rate|].
  split; [apply ge5_mean_selection_rate|].
  split; [exact (guarded_bar african_american rows)
         |exact (guarded_bar others rows)].
Qed.

Lemma count_complement (p : Row -> bool) (rs : list Row) :
  (count p rs + count (fun r => negb (p r)) rs = len rs)%Z.
Proof.
  unfold count, len. induction rs as [|r rs IH]; [reflexivity|].
  cbn [filter]. destruct (p r); cbn [negb List.length]; lia.
Qed.

(** X5.  The two defendant counts of the report's overview add up to the
    number of records analysed, and they are the sizes of the two cohorts
    over which [calculate_fairness_metrics] computes its rates: every record
    whose [race] is not exactly 'African-American' counts as Others. *)
Theorem overview_counts_partition (self : Auditor.CompasBiasAuditor) :
  (Auditor.african_american_defendants self
   + Auditor.other_race_defendants self
   = Auditor.total_records self)%Z
  /\ Auditor.african_american_defendants self
     = len (filter african_american (Auditor.data self))
  /\ Auditor.other_race_defendants self
     = len (filter others (Auditor.data self))
  /\ forall r, In r (Auditor.data self) ->
       (race_binary r = 1%Z /\ african_american r = true
        /\ race r = "African-American"%string)
       \/ (race_binary r = 0%Z /\ others r = true
           /\ race r <> "African-American"%string).
Proof.
  unfold Auditor.african_american_defendants, Auditor.other_race_defendants,
    Auditor.total_records.
  rewrite !np_sum_bool_count.
  split; [apply (count_complement african_american)|].
  split; [reflexivity|]. split; [reflexivity|].
  intros r _. unfold race_binary, others, african_american.
  destruct (String.eqb_spec (race r) "African-American") as [E|E].
  - left. now repeat split.
  - right. now repeat split.
Qed.

(** ** The fairness score of the report *)

Lemma in_unit_fin (x : float) :
  F64.in_unit x <-> exists q : Q, x = Fin q /\ (0 <= q)%Q /\ (q <= 1)%Q.
Proof.
  split.
  - intros [H0 H1].
    inversion H0 as [a b L0 Ha Hb|y N E|y N E]; subst;
      inversion H1 as [a' c L1 Ha' Hc|y' N' E'|y' N' E']; subst.
    now exists b.
  - intros [q [E [H0 H1]]]. subst x. split; now constructor.
Qed.

Lemma not_in_unit_nan : ~ F64.in_unit NaN.
Proof. intros [H _]. inversion H. Qed.

Lemma abs_difference_in_unit (x y : float) :
  F64.in_unit x -> F64.in_unit y -> F64.in_unit (F64.abs (x - y)).
Proof.
  intros Hx Hy.
  apply in_unit_fin in Hx. destruct Hx as [a [Ea [Ha0 Ha1]]].
  apply in_unit_fin in Hy. destruct Hy as [b [Eb [Hb0 Hb1]]].
  subst x y. cbn [F64.sub F64.abs]. apply in_unit_fin.
  eexists; split; [reflexivity|]. split; [apply Qabs_nonneg|].
  apply Qabs_case; intros; lra.
Qed.

Lemma Qabs_zero_iff (x : Q) : (Qabs x == 0)%Q <-> (x == 0)%Q.
Proof.
  apply (Qabs_case x (fun y => (y == 0)%Q <-> (x == 0)%Q));
    intros H; split; intros E; lra.
Qed.

Lemma flt_fin_inv (a b : Q) : F64.flt (Fin a) (Fin b) -> (a < b)%Q.
Proof. intros H. now inversion H. Qed.

Lemma feq_fin_inv (a b : Q) : F64.feq (Fin a) (Fin b) -> (a == b)%Q.
Proof. intros H. now inversion H. Qed.

(** X6.  For every metrics dictionary, the "ALGORITHMIC FAIRNESS SCORE" that
    the report prints as [.../1.0] is never above 1, and it is 1 whenever
    the FPR difference is 0 and the disparate impact is 1. *)
Theorem fairness_score_at_most_one (metrics : Auditor.Metrics) :
  ~ F64.flt (Fin 1) (Auditor.fairness_score metrics)
  /\ (F64.is_zero (Auditor.fpr_difference metrics)
      /\ F64.feq (Auditor.disparate_impact metrics) (Fin 1) ->
      F64.feq (Auditor.fairness_score metrics) (Fin 1)).
Proof.
  unfold Auditor.fairness_score, F64.is_zero.
  destruct (Auditor.fpr_difference metrics) as [a| | |],
           (Auditor.disparate_impact metrics) as [b| | |];
    cbn [F64.sub F64.abs];
    try solve [split; [intros H; inversion H
                      |intros [H1 H2];
                       solve [inversion H1|inversion H2]]].
  pose proof (Qabs_nonneg a) as Na. pose proof (Qabs_nonneg (b - 1)) as Nb.
  split.
  - intros H. apply flt_fin_inv in H. lra.
  - intros [H1 H2]. apply feq_fin_inv in H1. apply feq_fin_inv in H2.
    assert (Zb : (b - 1 == 0)%Q) by lra.
    apply (proj2 (Qabs_zero_iff _)) in H1.
    apply (proj2 (Qabs_zero_iff _)) in Zb.
    apply F64.feq_fin. lra.
Qed.

Lemma conditional_rate_cases (t : Z) (base : Row -> bool) (rs : list Row) :
  conditional_rate t base rs = NaN
  \/ F64.in_unit (conditional_rate t base rs).
Proof.
  pose proof (count_nonneg base rs) as H.
  destruct (Z.eq_dec (count base rs) 0) as [E|E].
  - left. now apply no_fill_full.
  - right. apply conditional_rate_in_unit. lia.
Qed.

(** X7.  Whenever the selection rate of the Others cohort is zero, the
    fairness score of the report is not a number: it is [-inf] when the FPR
    difference is a number and [nan] when the FPR difference is [nan]. *)
Theorem fairness_score_zero_reference (rows : list Row) :
  F64.is_zero (Auditor.selection_rate_others (full_metrics rows)) ->
  Auditor.fairness_score (full_metrics rows)
  = if F64.is_nan (Auditor.fpr_difference (full_metrics rows))
    then NaN else NInf.
Proof.
  intros H. unfold Auditor.fairness_score. fields.
  inversion H as [o z Zo Eo Ez| |]; subst.
  rewrite (gtb_zero_of_zero o Zo).
  destruct (conditional_rate_cases high_risk_threshold no_recid
              (filter african_american rows)) as [Ea|Ha];
    [rewrite Ea; reflexivity|].
  destruct (conditional_rate_cases high_risk_threshold no_recid
              (filter others rows)) as [Eb|Hb].
  - rewrite Eb.
    destruct (conditional_rate high_risk_threshold no_recid
                (filter african_american rows)); reflexivity.
  - apply in_unit_fin in Ha. destruct Ha as [a [Ea _]].
    apply in_unit_fin in Hb. destruct Hb as [b [Eb _]].
    rewrite Ea, Eb. reflexivity.
Qed.

Lemma fairness_score_zero_reference_witness :
  Auditor.fairness_score (full_metrics [aa 7 false; caucasian 2 false]) = NInf.
Proof.
  apply (fairness_score_zero_reference [aa 7 false; caucasian 2 false]).
  vm_compute. constructor. reflexivity.
Defined.

(** ** The wording of the simplified report *)

(** X8.  The finding of [generate_audit_report] reads "substantial bias
    against African Americans" exactly when the disparate impact is above
    1.2, so whenever it does, [analyze_bias] has printed the WARNING line for
    the same dictionary.  The converse fails on the low side: for every
    dictionary with a disparate impact below 0.8, [analyze_bias] prints the
    WARNING line and the report reads "acceptable demographic parity". *)
Theorem report_phrase_one_sided (metrics : Simplified.Metrics) :
  let warning :=
    "  WARNING: DEMOGRAPHIC PARITY VIOLATED (80%-125% rule)"%string in
  (Simplified.report_parity_phrase metrics
   = "substantial bias against African Americans"%string
   <-> F64.flt (Fin (12 # 10)) (Simplified.disparate_impact metrics))
  /\ (Simplified.report_parity_phrase metrics
      = "substantial bias against African Americans"%string ->
      Simplified.demographic_parity_line metrics = warning)
  /\ (F64.flt (Simplified.disparate_impact metrics) (Fin (8 # 10)) ->
      Simplified.demographic_parity_line metrics = warning
      /\ Simplified.report_parity_phrase metrics
         = "acceptable demographic parity"%string).
Proof.
  intros warning. unfold warning, Simplified.report_parity_phrase,
    Simplified.demographic_parity_line.
  split; [|split].
  - rewrite <- gtb_flt.
    destruct (_ >? _); split; intros H; try reflexivity; discriminate H.
  - destruct (Simplified.disparate_impact metrics >? Fin (12 # 10));
      [intros _; now rewrite orb_true_r|discriminate].
  - intros H. pose proof (proj2 (ltb_flt _ _) H) as L. rewrite L.
    split; [reflexivity|].
    destruct (Simplified.disparate_impact metrics) as [q| | |];
      try (inversion H; fail); cbn [F64.gtb F64.ltb]; [|reflexivity].
    apply flt_fin_inv in H.
    destruct (12 # 10 ?= q)%Q eqn:E; try reflexivity.
    apply Qlt_alt in E. lra.
Qed.

Lemma report_phrase_one_sided_witness :
  let rows := [aa 7 true; aa 1 false; aa 2 false; caucasian 8 true] in
  Simplified.demographic_parity_line (simple_metrics rows None)
  = "  WARNING: DEMOGRAPHIC PARITY VIOLATED (80%-125% rule)"%string
  /\ Simplified.report_parity_phrase (simple_metrics rows None)
     = "acceptable demographic parity"%string.
Proof.
  cbv zeta.
  apply (report_phrase_one_sided
           (simple_metrics
              [aa 7 true; aa 1 false; aa 2 false; caucasian 8 true] None)).
  vm_compute. constructor. reflexivity.
Defined.

(** ** Gaps, and the other rates under a higher threshold *)

(** X9.  For every table, the TPR difference of
    [calculate_fairness_metrics] and the FPR and TPR differences of
    [analyze_bias] are numbers of [[0,1]]; the FPR difference of
    [calculate_fairness_metrics] is a number of [[0,1]] exactly when both
    cohorts have a record with [two_year_recid == 0], and is [nan]
    otherwise. *)
Theorem gaps_in_unit_interval (rows : list Row) (column : option (list Z)) :
  let mf := full_metrics rows in
  let ms := simple_metrics rows column in
  let both_have_negatives :=
    (0 < count no_recid (filter african_american rows))%Z
    /\ (0 < count no_recid (filter others rows))%Z in
  F64.in_unit (Auditor.tpr_difference mf)
  /\ F64.in_unit (F64.abs (Simplified.fpr_aa ms - Simplified.fpr_other ms))
  /\ F64.in_unit (F64.abs (Simplified.tpr_aa ms - Simplified.tpr_other ms))
  /\ (F64.in_unit (Auditor.fpr_difference mf) <-> both_have_negatives)
  /\ (~ both_have_negatives -> Auditor.fpr_difference mf = NaN).
Proof.
  intros mf ms both. unfold both, mf, ms. clear both mf ms. fields.
  split; [apply abs_difference_in_unit; apply zero_filled_rate_in_unit|].
  split; [apply abs_difference_in_unit; apply zero_filled_rate_in_unit|].
  split; [apply abs_difference_in_unit; apply zero_filled_rate_in_unit|].
  set (A := filter african_american rows). set (B := filter others rows).
  pose proof (count_nonneg no_recid A) as NA.
  pose proof (count_nonneg no_recid B) as NB.
  assert (N : ~ ((0 < count no_recid A)%Z /\ (0 < count no_recid B)%Z) ->
              F64.abs (conditional_rate high_risk_threshold no_recid A
                       - conditional_rate high_risk_threshold no_recid B)
              = NaN).
  { intros H.
    destruct (Z.eq_dec (count no_recid A) 0) as [EA|EA].
    - now rewrite (no_fill_full _ _ _ EA).
    - destruct (Z.eq_dec (count no_recid B) 0) as [EB|EB]; [|exfalso; lia].
      rewrite (no_fill_full _ _ _ EB).
      now destruct (conditional_rate high_risk_threshold no_recid A). }
  split; [split|exact N].
  - intros H.
    destruct (Z_lt_le_dec 0 (count no_recid A)) as [LA|LA];
      [destruct (Z_lt_le_dec 0 (count no_recid B)) as [LB|LB]|];
      [now split| |]; exfalso; rewrite N in H by lia;
      exact (not_in_unit_nan H).
  - intros [LA LB].
    apply abs_difference_in_unit; now apply conditional_rate_in_unit.
Qed.






(** ** [groupby('race')]: the table of [calculate_basic_statistics] *)

Lemma group_keys_spec (rs : list Row) (key : string) :
  In key (group_keys rs) <-> exists r, In r rs /\ race r = key.
Proof.
  unfold group_keys. split.
  - intros H.
    apply (Permutation_in _ (Permutation_sym (StringSort.Permuted_sort _)))
      in H.
    apply nodup_In in H. apply in_map_iff in H.
    destruct H as [r [E Hr]]. now exists r.
  - intros [r [Hr E]].
    apply (Permutation_in _ (StringSort.Permuted_sort _)).
    apply nodup_In. apply in_map_iff. now exists r.
Qed.

Lemma group_keys_NoDup (rs : list Row) : NoDup (group_keys rs).
Proof.
  unfold group_keys.
  apply (Permutation_NoDup (StringSort.Permuted_sort _)). apply NoDup_nodup.
Qed.

Lemma np_sum_map_add {A : Type} (f g : A -> Z) (l : list A) :
  np_sum (map (fun x => (f x + g x)%Z) l)
  = (np_sum (map f l) + np_sum (map g l))%Z.
Proof.
  unfold np_sum. induction l as [|x l IH]; cbn [map fold_right]; lia.
Qed.

Lemma np_sum_map_zero {A : Type} (l : list A) :
  np_sum (map (fun _ => 0%Z) l) = 0%Z.
Proof.
  unfold np_sum. induction l as [|x l IH]; cbn [map fold_right]; lia.
Qed.

Lemma indicator_sum (x : string) (ks : list string) :
  NoDup ks ->
  np_sum (map (fun k => astype_int (String.eqb x k)) ks)
  = astype_int (if in_dec string_dec x ks then true else false).
Proof.
  unfold np_sum. induction 1 as [|k ks N D IH]; [reflexivity|].
  cbn [map fold_right]. rewrite IH.
  destruct (String.eqb_spec x k) as [E|E].
  - subst k. destruct (in_dec string_dec x ks) as [I|I]; [contradiction|].
    destruct (in_dec string_dec x (x :: ks)) as [J|J]; [reflexivity|].
    exfalso. apply J. now left.
  - destruct (in_dec string_dec x ks) as [I|I];
      destruct (in_dec string_dec x (k :: ks)) as [J|J]; try reflexivity.
    + exfalso. apply J. now right.
    + exfalso. destruct J as [J|J]; [now apply E|contradiction].
Qed.

(** The sizes of the groups of a list of keys without repetition that
    covers the races of [rs] add up to the size of [rs]. *)
Lemma group_sizes_sum (ks : list string) (rs : list Row) :
  NoDup ks -> (forall r, In r rs -> In (race r) ks) ->
  np_sum (map (fun k => len (group k rs)) ks) = len rs.
Proof.
  intros N. induction rs as [|r rs IH]; intros C.
  - apply np_sum_map_zero.
  - rewrite (map_ext _ (fun k => (astype_int (String.eqb (race r) k)
                                  + len (group k rs))%Z)).
    + rewrite np_sum_map_add, (indicator_sum _ _ N), IH.
      * destruct (in_dec string_dec (race r) ks) as [I|I].
        -- unfold len. cbn [astype_int List.length]. lia.
        -- exfalso. apply I. apply C. now left.
      * intros x Hx. apply C. now right.
    + intros k. unfold group, len. cbn [filter].
      destruct (String.eqb (race r) k); cbn [astype_int List.length]; lia.
Qed.

Lemma group_keys_cover (rs : list Row) (p : Row -> bool) :
  forall r, In r (filter p rs) -> In (race r) (group_keys rs).
Proof.
  intros r Hr. apply filter_In in Hr. apply group_keys_spec.
  exists r. now split.
Qed.

Lemma np_mean_indicator (p : Row -> bool) (rs : list Row) :
  np_mean (map (fun r => astype_int (p r)) rs) = ratio (count p rs) (len rs).
Proof.
  unfold np_mean, ratio, count. now rewrite np_sum_indicator, len_map.
Qed.

(** X11.  The table [recidivism_by_race] that [calculate_basic_statistics]
    returns has one line for each race that occurs in the data and no other,
    in sorted order without repetition; its counts add up to the number of
    records; and every line has a count of at least 1 and a mean that is a
    number of [[0,1]]: unlike a cohort rate, a group mean is never [nan]. *)
Theorem recidivism_by_race_groups (self : Auditor.CompasBiasAuditor) :
  let table := Auditor.recidivism_by_race self in
  (forall key, In key (map fst table)
               <-> exists r, In r (Auditor.data self) /\ race r = key)
  /\ NoDup (map fst table)
  /\ Sorted (fun a b => String.leb a b = true) (map fst table)
  /\ np_sum (map (fun line => snd (snd line)) table)
     = Auditor.total_records self
  /\ (forall key mean n, In (key, (mean, n)) table ->
        (1 <= n)%Z /\ F64.in_unit mean).
Proof.
  intros table. unfold table, Auditor.recidivism_by_race,
    groupby_race_mean_count, Auditor.total_records.
  rewrite !map_map. cbn [fst snd]. rewrite map_id.
  split; [apply group_keys_spec|]. split; [apply group_keys_NoDup|].
  split; [exact (StringSort.Sorted_sort _)|]. split.
  - apply group_sizes_sum; [apply group_keys_NoDup|].
    intros r Hr. apply group_keys_spec. now exists r.
  - intros key mean n H. apply in_map_iff in H.
    destruct H as [k [E Hk]]. inversion E; subst; clear E.
    apply group_keys_spec in Hk. destruct Hk as [r [Hr Er]].
    assert (P : (0 < len (group key (Auditor.data self)))%Z).
    { assert (I : In r (group key (Auditor.data self))).
      { apply filter_In. split; [exact Hr|now apply String.eqb_eq]. }
      unfold len. destruct (group key (Auditor.data self));
        [contradiction|cbn [List.length]; lia]. }
    split; [lia|].
    rewrite (np_mean_indicator two_year_recid).
    apply ratio_in_unit; [|exact P].
    split; [apply count_nonneg|apply count_le_len].
Qed.

(** X12.  The overall recidivism rate is the quotient of the number of
    recidivists by the number of records; each line of [recidivism_by_race]
    holds the same quotient for its group; and the group numerators add up
    to the overall numerator, as the group counts add up to the overall
    count: the overall rate is the count-weighted mean of the group rates. *)
Theorem overall_rate_from_groups (self : Auditor.CompasBiasAuditor) :
  let rows := Auditor.data self in
  Auditor.overall_recidivism self = ratio (count recid rows) (len rows)
  /\ Auditor.recidivism_by_race self
     = map (fun key => (key, (ratio (count recid (group key rows))
                                    (len (group key rows)),
                              len (group key rows))))
           (group_keys rows)
  /\ np_sum (map (fun key => count recid (group key rows)) (group_keys rows))
     = count recid rows
  /\ np_sum (map (fun key => len (group key rows)) (group_keys rows))
     = len rows.
Proof.
  intros rows. unfold rows, Auditor.overall_recidivism,
    Auditor.recidivism_by_race, groupby_race_mean_count.
  split; [apply (np_mean_indicator two_year_recid)|].
  split; [apply map_ext; intros k;
          now rewrite (np_mean_indicator two_year_recid)|].
  split.
  - rewrite (map_ext _ (fun key => len (group key
                                          (filter recid (Auditor.data self))))).
    + apply group_sizes_sum; [apply group_keys_NoDup|].
      apply group_keys_cover.
    + intros k. unfold count, group.
      rewrite !len_filter_filter. unfold len. f_equal. f_equal.
      apply filter_ext. intros r. apply andb_comm.
  - apply group_sizes_sum; [apply group_keys_NoDup|].
    intros r Hr. apply group_keys_spec. now exists r.
Qed.
